(** * Radio coverage estimation: the Hata path-loss pipeline

    A shallow embedding of [generate_arcgis_coverage.py] and of the
    propagation part of [radio_coverage_ub.py].

    Numbers.  A NumPy [float64] is modelled by [npfloat]: a finite value is
    a real number and arithmetic on finite values is exact (no rounding, no
    overflow, no signed zero); the three special values [inf], [-inf] and
    [nan] and the way NumPy produces and propagates them (a warning, never
    an exception) are modelled as IEEE 754 prescribes.  Python [int]
    constants that only ever meet floats (tower height, power, frequency)
    are embedded as finite [npfloat]s.

    Errors.  Python exceptions are modelled by the [py] error monad.

    Records.  A Python [dict] is an association list in insertion order; a
    [pandas.DataFrame] is a list of column labels and a list of rows. *)

From Stdlib Require Import Reals Lra Lia ZArith List String Bool.
Import ListNotations.

Open Scope string_scope.
Open Scope list_scope.
Open Scope R_scope.

(* ================================================================== *)
(** * NumPy floating-point values *)
(* ================================================================== *)

Inductive npfloat : Type :=
| Fin (x : R)
| PInf
| NInf
| NaN.

Coercion Fin : R >-> npfloat.

Declare Scope npf_scope.
Delimit Scope npf_scope with npf.
Bind Scope npf_scope with npfloat.

Definition is_finite (a : npfloat) : bool :=
  match a with Fin _ => true | _ => false end.

Definition signed_inf (positive : bool) : npfloat :=
  if positive then PInf else NInf.

(** [±inf * x] for a finite [x]: the sign follows [x], and [inf * 0] is
    [nan]. *)
Definition scale_inf (positive : bool) (x : R) : npfloat :=
  if Rlt_dec 0 x then signed_inf positive
  else if Rlt_dec x 0 then signed_inf (negb positive)
  else NaN.

Definition fneg (a : npfloat) : npfloat :=
  match a with
  | Fin x => Fin (- x)
  | PInf => NInf
  | NInf => PInf
  | NaN => NaN
  end.

Definition fadd (a b : npfloat) : npfloat :=
  match a, b with
  | NaN, _ | _, NaN => NaN
  | Fin x, Fin y => Fin (x + y)
  | PInf, NInf | NInf, PInf => NaN
  | PInf, _ | _, PInf => PInf
  | NInf, _ | _, NInf => NInf
  end.

Definition fsub (a b : npfloat) : npfloat := fadd a (fneg b).

Definition fmul (a b : npfloat) : npfloat :=
  match a, b with
  | NaN, _ | _, NaN => NaN
  | Fin x, Fin y => Fin (x * y)
  | Fin x, PInf | PInf, Fin x => scale_inf true x
  | Fin x, NInf | NInf, Fin x => scale_inf false x
  | PInf, PInf | NInf, NInf => PInf
  | PInf, NInf | NInf, PInf => NInf
  end.

(** NumPy's true division: a zero divisor gives [±inf] or [nan] (with a
    warning), never [ZeroDivisionError]. *)
Definition fdiv (a b : npfloat) : npfloat :=
  match a, b with
  | NaN, _ | _, NaN => NaN
  | Fin x, Fin y => if Req_dec_T y 0 then scale_inf true x else Fin (x / y)
  | Fin _, (PInf | NInf) => Fin 0
  | PInf, Fin y => if Rlt_dec y 0 then NInf else PInf
  | NInf, Fin y => if Rlt_dec y 0 then PInf else NInf
  | (PInf | NInf), (PInf | NInf) => NaN
  end.

(** [a < b]; every comparison with [nan] is false. *)
Definition flt (a b : npfloat) : bool :=
  match a, b with
  | NaN, _ | _, NaN => false
  | Fin x, Fin y => if Rlt_dec x y then true else false
  | _, NInf => false
  | NInf, _ => true
  | PInf, _ => false
  | Fin _, PInf => true
  end.

(** [a <= b]; every comparison with [nan] is false. *)
Definition fle (a b : npfloat) : bool :=
  match a, b with
  | NaN, _ | _, NaN => false
  | Fin x, Fin y => if Rle_dec x y then true else false
  | NInf, _ => true
  | _, PInf => true
  | _, NInf => false
  | PInf, _ => false
  end.

Notation "a + b" := (fadd a b) : npf_scope.
Notation "a - b" := (fsub a b) : npf_scope.
Notation "a * b" := (fmul a b) : npf_scope.
Notation "a / b" := (fdiv a b) : npf_scope.
Notation "- a" := (fneg a) : npf_scope.
Notation "a <? b" := (flt a b) : npf_scope.
Notation "a <=? b" := (fle a b) : npf_scope.

(** Decimal logarithm on the reals. *)
Definition Rlog10 (x : R) : R := ln x / ln 10.

(** [np.log10]: [-inf] at zero, [nan] below. *)
Definition np_log10 (a : npfloat) : npfloat :=
  match a with
  | Fin x => if Rlt_dec 0 x then Fin (Rlog10 x)
             else if Rlt_dec x 0 then NaN else NInf
  | PInf => PInf
  | NInf => NaN
  | NaN => NaN
  end.

(** [np.sqrt]: [nan] below zero. *)
Definition np_sqrt (a : npfloat) : npfloat :=
  match a with
  | Fin x => if Rlt_dec x 0 then NaN else Fin (sqrt x)
  | PInf => PInf
  | NInf => NaN
  | NaN => NaN
  end.

(** [np.cos]: [nan] at the infinities. *)
Definition np_cos (a : npfloat) : npfloat :=
  match a with
  | Fin x => Fin (cos x)
  | _ => NaN
  end.

(** [np.radians]: degrees to radians. *)
Definition np_radians (a : npfloat) : npfloat :=
  match a with
  | Fin x => Fin (x * (PI / 180))
  | other => other
  end.

(** [x ** 2] on a float. *)
Definition fsquare (a : npfloat) : npfloat := (a * a)%npf.

(* ================================================================== *)
(** * Propagation model *)
(* ================================================================== *)

(** The correction factor for the mobile antenna height, [a_hm]: line 12 of
    [generate_arcgis_coverage.py] and, with the same text, line 126 of
    [radio_coverage_ub.py]. *)
Definition mobile_antenna_correction (rx_height freq_mhz : npfloat)
  : npfloat :=
  ((1.1 * np_log10 freq_mhz - 0.7) * rx_height
   - (1.56 * np_log10 freq_mhz - 0.8))%npf.

(** [hata_okahamaru_model] of [generate_arcgis_coverage.py]: the pair
    [(L_hata, okahamaru_error)].  [city_size] is accepted and ignored, as in
    the source. *)
Definition hata_okahamaru_model
    (tx_height rx_height freq_mhz distance_km : npfloat)
    (city_size : string) : npfloat * npfloat :=
  let a_hm := mobile_antenna_correction rx_height freq_mhz in
  let L_hata :=
    (69.55 + 26.16 * np_log10 freq_mhz
     - 13.82 * np_log10 tx_height
     - a_hm
     + (44.9 - 6.55 * np_log10 tx_height) * np_log10 distance_km)%npf in
  let okahamaru_error :=
    (2.0 + 0.5 * np_log10 distance_km
     + 0.3 * np_log10 (freq_mhz / 900))%npf in
  (L_hata, okahamaru_error).

(** [hata_model] of [radio_coverage_ub.py]. *)
Definition hata_model
    (tx_height rx_height freq_mhz distance_km : npfloat)
    (city_size : string) : npfloat :=
  let a_hm := mobile_antenna_correction rx_height freq_mhz in
  let L :=
    (69.55 + 26.16 * np_log10 freq_mhz
     - 13.82 * np_log10 tx_height
     - a_hm
     + (44.9 - 6.55 * np_log10 tx_height) * np_log10 distance_km)%npf in
  L.

(* ================================================================== *)
(** * Python values, exceptions and containers *)
(* ================================================================== *)

Inductive exn : Type :=
| IndexError
| KeyError (label : string)
| ValueError.

(** The outcome of a Python computation: a value or a raised exception. *)
Inductive py (A : Type) : Type :=
| Ok (a : A)
| Raise (e : exn).

Arguments Ok {A} a.
Arguments Raise {A} e.

Definition bind {A B : Type} (c : py A) (k : A -> py B) : py B :=
  match c with
  | Ok a => k a
  | Raise e => Raise e
  end.

Declare Scope py_scope.
Delimit Scope py_scope with py.
Notation "x <- c ;; k" := (bind c (fun x => k))
  (at level 61, c at next level, right associativity) : py_scope.
Open Scope py_scope.

(** [l[i]] for a non-negative index. *)
Definition getitem {A : Type} (l : list A) (i : nat) : py A :=
  match nth_error l i with
  | Some a => Ok a
  | None => Raise IndexError
  end.

(** A [for] loop whose body updates one accumulated variable; an exception
    in the body leaves the loop. *)
Fixpoint for_each {I S : Type} (xs : list I) (body : I -> S -> py S) (s : S)
  : py S :=
  match xs with
  | [] => Ok s
  | x :: rest => s' <- body x s ;; for_each rest body s'
  end.

(** [for i in range(n)]. *)
Definition for_range {S : Type} (n : nat) (body : nat -> S -> py S) (s : S)
  : py S :=
  for_each (seq 0 n) body s.

(** The values stored in a coverage record: numbers and strings. *)
Inductive value : Type :=
| VNum (x : npfloat)
| VStr (s : string).

(** A [dict] with string keys, in insertion order. *)
Definition dict : Type := list (string * value).

(** [d[k] = v]: an existing key keeps its place, a new key goes last. *)
Fixpoint dict_set (d : dict) (k : string) (v : value) : dict :=
  match d with
  | [] => [(k, v)]
  | (k', v') :: rest =>
      if String.eqb k' k then (k', v) :: rest
      else (k', v') :: dict_set rest k v
  end.

(** [d.update({...})] *)
Definition dict_update (d : dict) (items : list (string * value)) : dict :=
  fold_left (fun acc kv => dict_set acc (fst kv) (snd kv)) items d.

(** A dict display [{k1: v1, ...}]. *)
Definition dict_of (items : list (string * value)) : dict :=
  dict_update [] items.

Fixpoint dict_get (d : dict) (k : string) : option value :=
  match d with
  | [] => None
  | (k', v) :: rest => if String.eqb k' k then Some v else dict_get rest k
  end.

Definition keys (d : dict) : list string := map fst d.

(* ================================================================== *)
(** * NumPy arrays: linspace and meshgrid *)
(* ================================================================== *)

Definition matrix : Type := list (list npfloat).

Definition feqb (a b : npfloat) : bool :=
  match a, b with
  | Fin x, Fin y => if Req_dec_T x y then true else false
  | PInf, PInf | NInf, NInf => true
  | _, _ => false
  end.

(** [y[-1] = v] *)
Fixpoint set_last {A : Type} (l : list A) (v : A) : list A :=
  match l with
  | [] => []
  | [_] => [v]
  | x :: rest => x :: set_last rest v
  end.

(** [np.linspace(start, stop, num)] with the default [endpoint=True]. *)
Definition np_linspace (start stop : npfloat) (num : Z) : py (list npfloat) :=
  if (num <? 0)%Z then Raise ValueError
  else
    let div := (num - 1)%Z in
    let delta := (stop - start)%npf in
    let arange := map (fun i : nat => Fin (INR i)) (seq 0 (Z.to_nat num)) in
    let y :=
      if (0 <? div)%Z then
        let step := (delta / IZR div)%npf in
        if feqb step 0 then map (fun i => (i / IZR div * delta)%npf) arange
        else map (fun i => (i * step)%npf) arange
      else map (fun i => (i * delta)%npf) arange in
    let y := map (fun v => (v + start)%npf) y in
    Ok (if (1 <? num)%Z then set_last y stop else y).

(** [np.meshgrid(x, y)] with the default [indexing='xy']: both results have
    [len(y)] rows and [len(x)] columns. *)
Definition np_meshgrid (x y : list npfloat) : matrix * matrix :=
  (repeat x (List.length y), map (fun v => repeat v (List.length x)) y).

(* ================================================================== *)
(** * [generate_arcgis_coverage.py] *)
(* ================================================================== *)

Definition generate_coverage_grid
    (center_lat center_lon : npfloat) (grid_size : Z) (area_km : npfloat)
  : py (matrix * matrix) :=
  let km_per_deg : npfloat := 111 in
  let dlat := (area_km / km_per_deg)%npf in
  let dlon :=
    (area_km / (km_per_deg * np_cos (np_radians center_lat)))%npf in
  lats <- np_linspace (center_lat - dlat / 2)%npf
                      (center_lat + dlat / 2)%npf grid_size ;;
  lons <- np_linspace (center_lon - dlon / 2)%npf
                      (center_lon + dlon / 2)%npf grid_size ;;
  Ok (np_meshgrid lats lons).

(** Lines 49-52 of [calculate_coverage_for_tower]: the planar distance
    before the floor is applied. *)
Definition raw_distance_km (tower_lat tower_lon lat lon : npfloat)
  : npfloat :=
  let km_per_deg : npfloat := 111 in
  let dlat := ((lat - tower_lat) * km_per_deg)%npf in
  let dlon :=
    ((lon - tower_lon) * km_per_deg * np_cos (np_radians tower_lat))%npf in
  np_sqrt (fsquare dlat + fsquare dlon)%npf.

(** Lines 54-55: the floor that avoids [log(0)]. *)
Definition floor_distance (distance_km : npfloat) : npfloat :=
  if (distance_km <? 0.01)%npf then 0.01 else distance_km.

(** Lines 67-72: the environment label. *)
Definition environment_type (distance_km : npfloat) : string :=
  if (distance_km <? 2)%npf then "Urban"
  else if (distance_km <? 5)%npf then "Suburban"
  else "Rural".

(** Lines 45-82: the body of the inner loop, from the two coordinates read
    off the grid to the record that is appended. *)
Definition coverage_point
    (tower_lat tower_lon tower_height tx_power freq_mhz lat lon : npfloat)
  : dict :=
  let distance_km := raw_distance_km tower_lat tower_lon lat lon in
  let distance_km := floor_distance distance_km in
  let rx_height : npfloat := 1.5 in
  let '(path_loss, okahamaru_error) :=
    hata_okahamaru_model tower_height rx_height freq_mhz distance_km
                         "large" in
  let rx_power := (tx_power - path_loss)%npf in
  let env_type := environment_type distance_km in
  dict_of
    [ ("Latitude", VNum lat);
      ("Longitude", VNum lon);
      ("Distance_km", VNum distance_km);
      ("Path_Loss_dB", VNum path_loss);
      ("Signal_Strength_dBm", VNum rx_power);
      ("Okahamaru_Error_dB", VNum okahamaru_error);
      ("Environment_Type", VStr env_type) ].

Definition calculate_coverage_for_tower
    (tower_lat tower_lon tower_height tx_power freq_mhz : npfloat)
    (grid_lats grid_lons : matrix) : py (list dict) :=
  for_range (List.length grid_lats) (fun i coverage_data =>
    row0 <- getitem grid_lats 0 ;;
    for_range (List.length row0) (fun j coverage_data =>
      lats_i <- getitem grid_lats i ;;
      lat <- getitem lats_i j ;;
      lons_i <- getitem grid_lons i ;;
      lon <- getitem lons_i j ;;
      Ok (coverage_data ++
          [coverage_point tower_lat tower_lon tower_height tx_power
                          freq_mhz lat lon]))
      coverage_data)
    [].

(** A tower of the configuration list: the keys ['lat'], ['lon'],
    ['height'], ['power'], ['freq'], ['id'] and ['type']. *)
Record Tower : Type := mkTower {
  t_lat : npfloat;
  t_lon : npfloat;
  t_height : npfloat;
  t_power : npfloat;
  t_freq : npfloat;
  t_id : string;
  t_type : string
}.

(** Lines 118-127: what [point.update] writes into every record of a
    tower. *)
Definition tower_information (tower : Tower) : list (string * value) :=
  [ ("Tower_Lat", VNum (t_lat tower));
    ("Tower_Lon", VNum (t_lon tower));
    ("Tower_Height_m", VNum (t_height tower));
    ("Tower_Power_dBm", VNum (t_power tower));
    ("Frequency_MHz", VNum (t_freq tower));
    ("Cell_ID", VStr (t_id tower));
    ("Tower_Type", VStr (t_type tower));
    ("Model_Type", VStr "Hata_Okahamaru") ].

(** Lines 107-129: the loop over the towers. *)
Definition all_coverage_data
    (towers : list Tower) (grid_lats grid_lons : matrix) : py (list dict) :=
  for_each towers (fun tower all_coverage_data =>
    coverage_data <-
      calculate_coverage_for_tower
        (t_lat tower) (t_lon tower) (t_height tower)
        (t_power tower) (t_freq tower) grid_lats grid_lons ;;
    let coverage_data :=
      map (fun point => dict_update point (tower_information tower))
          coverage_data in
    Ok (all_coverage_data ++ coverage_data))
    [].

(* ================================================================== *)
(** * pandas: building the frame and selecting its columns *)
(* ================================================================== *)

Record DataFrame : Type := mkDataFrame {
  columns : list string;
  rows : list (list value)
}.

(** The labels of [ks] that [seen] lacks are added after it, in order. *)
Definition union_keys (seen ks : list string) : list string :=
  fold_left
    (fun acc k => if existsb (String.eqb k) acc then acc else acc ++ [k])
    ks seen.

(** [pd.DataFrame(records)] for a list of dicts: the columns are the keys in
    order of first appearance, a key a record lacks is filled with [nan]. *)
Definition pd_DataFrame (records : list dict) : DataFrame :=
  let cols := fold_left (fun acc d => union_keys acc (keys d)) records [] in
  {| columns := cols;
     rows :=
       map (fun d =>
              map (fun c => match dict_get d c with
                            | Some v => v
                            | None => VNum NaN
                            end) cols)
           records |}.

Fixpoint index_of (c : string) (cols : list string) : option nat :=
  match cols with
  | [] => None
  | c' :: rest =>
      if String.eqb c' c then Some O
      else match index_of c rest with
           | Some i => Some (S i)
           | None => None
           end
  end.

Fixpoint positions (cols labels : list string) : py (list nat) :=
  match labels with
  | [] => Ok []
  | c :: rest =>
      match index_of c cols with
      | Some i => idx <- positions cols rest ;; Ok (i :: idx)
      | None => Raise (KeyError c)
      end
  end.

(** [df[labels]]: the named columns in the order asked for; a label the
    frame lacks raises [KeyError]. *)
Definition df_getitem (df : DataFrame) (labels : list string)
  : py DataFrame :=
  idx <- positions (columns df) labels ;;
  Ok {| columns := labels;
        rows := map (fun row => map (fun i => nth i row (VNum NaN)) idx)
                    (rows df) |}.

(** The records of a frame, each a list of (label, value) in column
    order. *)
Definition df_records (df : DataFrame) : list (list (string * value)) :=
  map (fun row => combine (columns df) row) (rows df).

(* ================================================================== *)
(** * The exported dataset *)
(* ================================================================== *)

Definition column_order : list string :=
  [ "Latitude"; "Longitude"; "Tower_Lat"; "Tower_Lon"; "Tower_Height_m";
    "Tower_Power_dBm"; "Frequency_MHz"; "Distance_km"; "Path_Loss_dB";
    "Signal_Strength_dBm"; "Okahamaru_Error_dB"; "Cell_ID"; "Tower_Type";
    "Environment_Type"; "Model_Type" ].

(** Lines 103-142 with the tower list and the grid configuration as
    arguments: grid, loop over the towers, frame, column selection. *)
Definition coverage_dataframe
    (towers : list Tower) (center_lat center_lon : npfloat)
    (grid_size : Z) (area_km : npfloat) : py DataFrame :=
  grids <- generate_coverage_grid center_lat center_lon grid_size area_km ;;
  let '(grid_lats, grid_lons) := grids in
  all <- all_coverage_data towers grid_lats grid_lons ;;
  let df := pd_DataFrame all in
  df_getitem df column_order.

Definition towers : list Tower :=
  [ mkTower 47.9212 106.9186 30 43 900 "TOWER_001" "Communication_Tower";
    mkTower 47.9250 106.9200 25 40 900 "TOWER_002" "Antenna";
    mkTower 47.9180 106.9150 35 45 900 "TOWER_003" "Communication_Tower";
    mkTower 47.9220 106.9220 20 38 900 "TOWER_004" "Antenna";
    mkTower 47.9160 106.9180 40 47 900 "TOWER_005" "Communication_Tower";
    mkTower 47.9240 106.9160 28 42 900 "TOWER_006" "Antenna";
    mkTower 47.9200 106.9200 32 44 900 "TOWER_007" "Communication_Tower";
    mkTower 47.9260 106.9190 22 39 900 "TOWER_008" "Antenna";
    mkTower 47.9170 106.9210 38 46 900 "TOWER_009" "Communication_Tower";
    mkTower 47.9230 106.9170 26 41 900 "TOWER_010" "Antenna" ].

(** [generate_arcgis_coverage_csv]: [timestamp] is what
    [datetime.now().strftime('%Y%m%d_%H%M%S')] reads off the clock.  The
    result is the returned file name with the frame written to that file;
    the console summary is not modelled. *)
Definition generate_arcgis_coverage_csv (timestamp : string)
  : py (string * DataFrame) :=
  df <- coverage_dataframe towers 47.9212 106.9186 30 15 ;;
  let filename := ("radio_coverage_arcgis_" ++ timestamp ++ ".csv")%string in
  Ok (filename, df).

(* ================================================================== *)
(** * Vocabulary of the statements *)
(* ================================================================== *)

(** The per-record field list as the specification gives it. *)
Definition spec_field_order : list string :=
  [ "Latitude"; "Longitude"; "Tower_Lat"; "Tower_Lon"; "Tower_Height_m";
    "Tower_Power_dBm"; "Frequency_MHz"; "Distance_km"; "Path_Loss_dB";
    "Signal_Strength_dBm"; "Error_dB"; "Cell_ID"; "Tower_Type";
    "Environment_Type"; "Model_Type" ].

(** A computation fails fast when it ends in an exception. *)
Definition fails_fast {A : Type} (c : py A) : Prop :=
  exists e, c = Raise e.

(** [x] is [v] up to [tol]. *)
Definition approx (x v tol : R) : Prop := Rabs (x - v) <= tol.

(** The Hata formula on the reals, for positive height, frequency and
    distance. *)
Definition hata_loss (tx_height rx_height freq_mhz distance_km : R) : R :=
  69.55 + 26.16 * Rlog10 freq_mhz - 13.82 * Rlog10 tx_height
  - ((1.1 * Rlog10 freq_mhz - 0.7) * rx_height
     - (1.56 * Rlog10 freq_mhz - 0.8))
  + (44.9 - 6.55 * Rlog10 tx_height) * Rlog10 distance_km.

(** The planar distance on the reals. *)
Definition planar_distance (tower_lat tower_lon lat lon : R) : R :=
  sqrt (((lat - tower_lat) * 111) * ((lat - tower_lat) * 111)
        + ((lon - tower_lon) * 111 * cos (tower_lat * (PI / 180)))
          * ((lon - tower_lon) * 111 * cos (tower_lat * (PI / 180)))).

(** A matrix of [r] rows of [c] entries. *)
Definition has_shape (r c : nat) (m : matrix) : Prop :=
  List.length m = r /\ Forall (fun row => List.length row = c) m.

(** The record of one tower at one grid point, as it enters the frame. *)
Definition tower_record (tower : Tower) (lat lon : npfloat) : dict :=
  dict_update
    (coverage_point (t_lat tower) (t_lon tower) (t_height tower)
                    (t_power tower) (t_freq tower) lat lon)
    (tower_information tower).

(** The records of one tower over an [r] by [c] grid: row after row, each
    row from its first column to its last. *)
Definition tower_block
    (point : npfloat -> npfloat -> dict) (r c : nat)
    (grid_lats grid_lons : matrix) : list dict :=
  flat_map
    (fun i =>
       map (fun j => point (nth j (nth i grid_lats []) NaN)
                           (nth j (nth i grid_lons []) NaN))
           (seq 0 c))
    (seq 0 r).

(** The keys of a record of the dataset, in insertion order: the seven of
    the inner loop, then the eight that [point.update] adds. *)
Definition record_keys : list string :=
  [ "Latitude"; "Longitude"; "Distance_km"; "Path_Loss_dB";
    "Signal_Strength_dBm"; "Okahamaru_Error_dB"; "Environment_Type";
    "Tower_Lat"; "Tower_Lon"; "Tower_Height_m"; "Tower_Power_dBm";
    "Frequency_MHz"; "Cell_ID"; "Tower_Type"; "Model_Type" ].

(** The record of one tower at one grid point as it leaves the frame, in
    the order of [column_order]. *)
Definition export_record (tower : Tower) (lat lon : npfloat) : dict :=
  let distance_km :=
    floor_distance (raw_distance_km (t_lat tower) (t_lon tower) lat lon) in
  let model :=
    hata_okahamaru_model (t_height tower) 1.5 (t_freq tower) distance_km
                         "large" in
  [ ("Latitude", VNum lat);
    ("Longitude", VNum lon);
    ("Tower_Lat", VNum (t_lat tower));
    ("Tower_Lon", VNum (t_lon tower));
    ("Tower_Height_m", VNum (t_height tower));
    ("Tower_Power_dBm", VNum (t_power tower));
    ("Frequency_MHz", VNum (t_freq tower));
    ("Distance_km", VNum distance_km);
    ("Path_Loss_dB", VNum (fst model));
    ("Signal_Strength_dBm", VNum (t_power tower - fst model)%npf);
    ("Okahamaru_Error_dB", VNum (snd model));
    ("Cell_ID", VStr (t_id tower));
    ("Tower_Type", VStr (t_type tower));
    ("Environment_Type", VStr (environment_type distance_km));
    ("Model_Type", VStr "Hata_Okahamaru") ].

(** The frame a run writes, without the name of the file. *)
Definition dataset_of (run : py (string * DataFrame)) : py DataFrame :=
  out <- run ;; Ok (snd out).

(** Lines 44-82: the inner loop of [calculate_coverage_for_tower] for the
    row [i], over [ncols] columns. *)
Definition coverage_row
    (tower_lat tower_lon tower_height tx_power freq_mhz : npfloat)
    (grid_lats grid_lons : matrix) (ncols i : nat)
    (coverage_data : list dict) : py (list dict) :=
  for_range ncols (fun j coverage_data =>
    lats_i <- getitem grid_lats i ;;
    lat <- getitem lats_i j ;;
    lons_i <- getitem grid_lons i ;;
    lon <- getitem lons_i j ;;
    Ok (coverage_data ++
        [coverage_point tower_lat tower_lon tower_height tx_power
                        freq_mhz lat lon]))
    coverage_data.

(** A record of the dataset with its fields put in the order of
    [column_order], a missing field filled with [nan]. *)
Definition export_of (d : dict) : dict :=
  map (fun c => (c, match dict_get d c with
                    | Some v => v
                    | None => VNum NaN
                    end)) column_order.

(* ================================================================== *)
(** * [radio_coverage_ub.py]: coverage of one transmitter *)
(* ================================================================== *)

(** An arithmetic operation on one array, entry by entry. *)
Definition array_map (f : npfloat -> npfloat) (a : matrix) : matrix :=
  map (map f) a.

(** An arithmetic operation on two arrays of one shape, entry by entry. *)
Definition array_map2 (f : npfloat -> npfloat -> npfloat) (a b : matrix)
  : matrix :=
  map (fun rows =>
         map (fun xy => f (fst xy) (snd xy))
             (combine (fst rows) (snd rows)))
      (combine a b).

(** The dict that [predict_coverage] returns. *)
Record Coverage : Type := mkCoverage {
  lat_grid : matrix;
  lon_grid : matrix;
  rx_power : matrix
}.

(** [predict_coverage]; [dem] and [buildings] are accepted and not used,
    as in the source. *)
Definition predict_coverage {D B : Type} (dem : D) (buildings : B)
    (tx_location : npfloat * npfloat)
    (tx_height tx_power_dbm freq_mhz : npfloat) : py Coverage :=
  let '(lat0, lon0) := tx_location in
  let grid_size := 200%Z in
  let km_per_deg : npfloat := 111 in
  let area_km : npfloat := 10 in
  let dlat := (area_km / km_per_deg)%npf in
  let dlon := (area_km / (km_per_deg * np_cos (np_radians lat0)))%npf in
  lats <- np_linspace (lat0 - dlat / 2)%npf (lat0 + dlat / 2)%npf
                      grid_size ;;
  lons <- np_linspace (lon0 - dlon / 2)%npf (lon0 + dlon / 2)%npf
                      grid_size ;;
  let '(lon_grid, lat_grid) := np_meshgrid lons lats in
  let dists :=
    array_map2
      (fun lat lon =>
         np_sqrt (fsquare ((lat - lat0) * km_per_deg)
                  + fsquare ((lon - lon0) * km_per_deg
                             * np_cos (np_radians lat0)))%npf)
      lat_grid lon_grid in
  let dists :=
    array_map (fun d => if (d <? 0.01)%npf then Fin 0.01 else d) dists in
  let rx_height : npfloat := 1.5 in
  let path_loss :=
    array_map (fun d => hata_model tx_height rx_height freq_mhz d "large")
              dists in
  let rx_power := array_map (fun l => (tx_power_dbm - l)%npf) path_loss in
  Ok {| lat_grid := lat_grid; lon_grid := lon_grid; rx_power := rx_power |}.

(* ================================================================== *)
(** * [radio_coverage_ub.py]: tower heights from map data *)
(* ================================================================== *)

(** The values a map feature carries under a tag: [None], a float (pandas
    stores a missing tag as [nan]) or a string. *)
Inductive pyobj : Type :=
| PyNone
| PyFloat (x : npfloat)
| PyStr (s : string).

(** A row of a frame of map features: its geometry and its tagged
    values, by column label. *)
Record Feature (Geometry : Type) : Type := mkFeature {
  geometry : Geometry;
  attributes : list (string * pyobj)
}.

Arguments mkFeature {Geometry} geometry attributes.
Arguments geometry {Geometry} f.
Arguments attributes {Geometry} f.

(** The dict [height_info]: the keys ['type'], ['geometry'] and
    ['coordinates'] are always set, ['height_m'] and ['estimated'] only on
    some paths. *)
Record HeightInfo (Geometry : Type) : Type := mkHeightInfo {
  hi_type : string;
  hi_geometry : Geometry;
  hi_coordinates : npfloat * npfloat;
  hi_height_m : option npfloat;
  hi_estimated : option bool
}.

Arguments mkHeightInfo {Geometry} hi_type hi_geometry hi_coordinates
  hi_height_m hi_estimated.
Arguments hi_type {Geometry} h.
Arguments hi_geometry {Geometry} h.
Arguments hi_coordinates {Geometry} h.
Arguments hi_height_m {Geometry} h.
Arguments hi_estimated {Geometry} h.

(** [tower[tag]] when [tag in tower]. *)
Fixpoint attribute (attrs : list (string * pyobj)) (tag : string)
  : option pyobj :=
  match attrs with
  | [] => None
  | (k, v) :: rest => if String.eqb k tag then Some v
                      else attribute rest tag
  end.

Definition is_not_None (v : pyobj) : bool :=
  match v with PyNone => false | _ => true end.

Section TowerHeights.

(** The geometry library and the parser of [float] are outside the
    repository: a geometry has a centroid [(x, y)], and [float] of a string
    either gives a number or raises [ValueError]. *)
Variable Geometry : Type.
Variable centroid : Geometry -> npfloat * npfloat.
Variable float_of_str : string -> option npfloat.

(** [float(v)]; [None] stands for the [ValueError] or [TypeError] that
    every call site catches. *)
Definition py_float (v : pyobj) : option npfloat :=
  match v with
  | PyNone => None
  | PyFloat x => Some x
  | PyStr s => float_of_str s
  end.

(** Lines 65-71: the first tag of the list that is present, is not [None]
    and converts ends the loop; any other tag is passed over. *)
Fixpoint first_height (attrs : list (string * pyobj))
    (height_tags : list string) : option npfloat :=
  match height_tags with
  | [] => None
  | tag :: rest =>
      match attribute attrs tag with
      | Some v =>
          if is_not_None v then
            match py_float v with
            | Some x => Some x
            | None => first_height attrs rest
            end
          else first_height attrs rest
      | None => first_height attrs rest
      end
  end.

Definition height_tags : list string :=
  [ "height"; "building:height"; "tower:height"; "ele" ].

(** Lines 58-81: the dict built for one feature. *)
Definition tower_height_info (tower_type : string)
    (tower : Feature Geometry) : HeightInfo Geometry :=
  let height_info :=
    mkHeightInfo tower_type (geometry tower)
                 (snd (centroid (geometry tower)),
                  fst (centroid (geometry tower)))
                 None None in
  let height_info :=
    match first_height (attributes tower) height_tags with
    | Some x =>
        mkHeightInfo (hi_type height_info) (hi_geometry height_info)
                     (hi_coordinates height_info) (Some x)
                     (hi_estimated height_info)
    | None => height_info
    end in
  match hi_height_m height_info with
  | Some _ => height_info
  | None =>
      match attribute (attributes tower) "building:levels" with
      | Some v =>
          if is_not_None v then
            match py_float v with
            | Some levels =>
                mkHeightInfo (hi_type height_info)
                             (hi_geometry height_info)
                             (hi_coordinates height_info)
                             (Some (levels * 3.0)%npf) (Some true)
            | None => height_info
            end
          else height_info
      | None => height_info
      end
  end.

(** [extract_tower_heights]: [osm_towers] is the dict of frames in
    insertion order, a frame is the list of its rows; every row has a
    geometry. *)
Definition extract_tower_heights
    (osm_towers : list (string * list (Feature Geometry)))
  : list (HeightInfo Geometry) :=
  fold_left
    (fun tower_heights item =>
       let '(tower_type, tower_data) := item in
       match tower_data with
       | [] => tower_heights
       | _ =>
           fold_left
             (fun tower_heights tower =>
                let height_info := tower_height_info tower_type tower in
                match hi_height_m height_info with
                | Some _ => tower_heights ++ [height_info]
                | None => tower_heights
                end)
             tower_data tower_heights
       end)
    osm_towers [].

(** Lines 184-199 and 209-213 of [create_tower_map]: the colour of the
    marker of one tower; [None] is a tower without ['height_m'], whose
    height reads ['Unknown']. *)
Definition marker_color (height : option npfloat) : string :=
  match height with
  | Some h =>
      if (h <? 20)%npf then "green"
      else if (h <? 50)%npf then "orange"
      else "red"
  | None => "gray"
  end.

(** The markers [create_tower_map] adds, each with its location and its
    colour; the popup text and the map object are not modelled. *)
Definition tower_markers (tower_heights : list (HeightInfo Geometry))
  : list ((npfloat * npfloat) * string) :=
  map (fun tower =>
         (hi_coordinates tower, marker_color (hi_height_m tower)))
      tower_heights.

End TowerHeights.

(* ================================================================== *)
(** * [radio_coverage_ub.py]: downloading the towers *)
(* ================================================================== *)

(** The values of the dict [tower_tags]. *)
Inductive tag_value : Type :=
| TagTrue
| TagStr (s : string)
| TagList (l : list string).

Definition tower_tags : list (string * tag_value) :=
  [ ("tower", TagTrue);
    ("man_made", TagList ["tower"; "communications_tower"; "antenna"]);
    ("building", TagList ["tower"; "communications_tower"]);
    ("amenity", TagStr "telephone") ].

(** [d[k] = v] on a dict of any values. *)
Fixpoint setitem {V : Type} (d : list (string * V)) (k : string) (v : V)
  : list (string * V) :=
  match d with
  | [] => [(k, v)]
  | (k', v') :: rest =>
      if String.eqb k' k then (k', v) :: rest
      else (k', v') :: setitem rest k v
  end.

Section DownloadTowers.

(** The map service is outside the repository: a query for one tag and
    one value gives a frame or raises, and a frame may be empty. *)
Variable GeoData : Type.
Variable empty : GeoData -> bool.
Variable geometries_from_place : string -> string -> tag_value -> py GeoData.

(** Lines 36-39: the loop over the values of a list; an exception leaves
    it with the dict as it is by then. *)
Fixpoint download_values (city_name tag_key : string) (values : list string)
    (towers : list (string * GeoData))
  : list (string * GeoData) * option exn :=
  match values with
  | [] => (towers, None)
  | value :: rest =>
      match geometries_from_place city_name tag_key (TagStr value) with
      | Raise e => (towers, Some e)
      | Ok data =>
          let towers :=
            if negb (empty data)
            then setitem towers (tag_key ++ "_" ++ value)%string data
            else towers in
          download_values city_name tag_key rest towers
      end
  end.

(** [str(tag_value)] in the key of a tag that is not a list. *)
Definition tag_text (tag_value : tag_value) : string :=
  match tag_value with
  | TagTrue => "True"
  | TagStr s => s
  | TagList _ => ""
  end.

(** Lines 34-45: the body of the [try], with the exception it ends in, if
    any. *)
Definition download_tag (city_name tag_key : string) (tag_value : tag_value)
    (towers : list (string * GeoData))
  : list (string * GeoData) * option exn :=
  match tag_value with
  | TagList values => download_values city_name tag_key values towers
  | _ =>
      match geometries_from_place city_name tag_key tag_value with
      | Raise e => (towers, Some e)
      | Ok data =>
          (if negb (empty data)
           then setitem towers (tag_key ++ "_" ++ tag_text tag_value)%string
                        data
           else towers, None)
      end
  end.

(** [download_tower_data]: the dict of frames, and the tag keys whose
    download was reported as failed, with the exception. *)
Definition download_tower_data (city_name : string)
  : list (string * GeoData) * list (string * exn) :=
  fold_left
    (fun state item =>
       let '(towers, printed) := state in
       let '(tag_key, tag_value) := item in
       match download_tag city_name tag_key tag_value towers with
       | (towers, None) => (towers, printed)
       | (towers, Some e) => (towers, printed ++ [(tag_key, e)])
       end)
    tower_tags ([], []).

End DownloadTowers.

(** The number a tag of a feature yields, if the tag is there, is not
    [None] and converts. *)
Definition usable_tag (float_of_str : string -> option npfloat)
    (attrs : list (string * pyobj)) (tag : string) : option npfloat :=
  match attribute attrs tag with
  | Some v => if is_not_None v then py_float float_of_str v else None
  | None => None
  end.

(** What one feature contributes to the result of
    [extract_tower_heights]: its entry, when it has a height. *)
Definition reported_entries (Geometry : Type)
    (centroid : Geometry -> npfloat * npfloat)
    (float_of_str : string -> option npfloat)
    (tower_type : string) (tower : Feature Geometry)
  : list (HeightInfo Geometry) :=
  match hi_height_m (tower_height_info Geometry centroid float_of_str
                                       tower_type tower) with
  | Some _ => [tower_height_info Geometry centroid float_of_str
                                 tower_type tower]
  | None => []
  end.

(** A toy parser of [float] for closed examples: it knows three texts. *)
Definition float_of_sample (s : string) : option npfloat :=
  if String.eqb s "1350" then Some (Fin 1350)
  else if String.eqb s "12" then Some (Fin 12)
  else if String.eqb s "4" then Some (Fin 4)
  else None.

(** The keys [download_tower_data] can store, in the order it asks. *)
Definition tower_data_keys : list string :=
  [ "tower_True"; "man_made_tower"; "man_made_communications_tower";
    "man_made_antenna"; "building_tower"; "building_communications_tower";
    "amenity_telephone" ].

(** The keys one entry of [tower_tags] can store. *)
Definition item_keys (item : string * tag_value) : list string :=
  match snd item with
  | TagList values => map (fun v => (fst item ++ "_" ++ v)%string) values
  | v => [(fst item ++ "_" ++ tag_text v)%string]
  end.

(** [k in l] for strings. *)
Definition mem (l : list string) (k : string) : bool :=
  existsb (String.eqb k) l.

(* ================================================================== *)
(** * Logarithms *)
(* ================================================================== *)

Lemma ln10_pos : 0 < ln 10.
Proof.
  rewrite <- ln_1. apply ln_increasing; lra.
Qed.

Lemma Rlog10_1 : Rlog10 1 = 0.
Proof.
  unfold Rlog10. rewrite ln_1. pose proof ln10_pos. field. lra.
Qed.

Lemma Rlog10_mult (x y : R) :
  0 < x -> 0 < y -> Rlog10 (x * y) = Rlog10 x + Rlog10 y.
Proof.
  intros Hx Hy. unfold Rlog10. rewrite ln_mult by assumption.
  pose proof ln10_pos. field. lra.
Qed.

Lemma Rlog10_pow10 (n : nat) : Rlog10 (10 ^ n) = INR n.
Proof.
  unfold Rlog10. rewrite ln_pow by lra.
  pose proof ln10_pos. field. lra.
Qed.

Lemma Rlog10_inv (x : R) : 0 < x -> Rlog10 (/ x) = - Rlog10 x.
Proof.
  intros Hx. unfold Rlog10. rewrite ln_Rinv by assumption.
  pose proof ln10_pos. field. lra.
Qed.

Lemma Rlog10_le (x y : R) : 0 < x -> x <= y -> Rlog10 x <= Rlog10 y.
Proof.
  intros Hx [Hlt | ->]; [|lra].
  unfold Rlog10. pose proof ln10_pos as H10.
  pose proof (ln_increasing x y Hx Hlt) as Hln.
  apply Rmult_le_compat_r; [|lra].
  left. now apply Rinv_0_lt_compat.
Qed.

(** Bounds on a decimal logarithm from a comparison of integer powers:
    [10^p < x^q] gives [p/q < log10 x], and the other way round. *)
Lemma Rlog10_lower (x : R) (p q : nat) :
  0 < x -> (0 < q)%nat -> 10 ^ p < x ^ q -> INR p / INR q < Rlog10 x.
Proof.
  intros Hx Hq Hpow.
  assert (Hq' : 0 < INR q) by (apply lt_0_INR; lia).
  pose proof ln10_pos as H10.
  assert (Hln : ln (10 ^ p) < ln (x ^ q)).
  { apply ln_increasing; [apply pow_lt; lra | assumption]. }
  rewrite !ln_pow in Hln by lra.
  unfold Rlog10.
  apply (Rmult_lt_reg_r (INR q * ln 10)); [nra|].
  replace (INR p / INR q * (INR q * ln 10)) with (INR p * ln 10)
    by (field; lra).
  replace (ln x / ln 10 * (INR q * ln 10)) with (INR q * ln x)
    by (field; lra).
  exact Hln.
Qed.

Lemma Rlog10_upper (x : R) (p q : nat) :
  0 < x -> (0 < q)%nat -> x ^ q < 10 ^ p -> Rlog10 x < INR p / INR q.
Proof.
  intros Hx Hq Hpow.
  assert (Hq' : 0 < INR q) by (apply lt_0_INR; lia).
  pose proof ln10_pos as H10.
  assert (Hln : ln (x ^ q) < ln (10 ^ p)).
  { apply ln_increasing; [apply pow_lt; lra | assumption]. }
  rewrite !ln_pow in Hln by lra.
  unfold Rlog10.
  apply (Rmult_lt_reg_r (INR q * ln 10)); [nra|].
  replace (INR p / INR q * (INR q * ln 10)) with (INR p * ln 10)
    by (field; lra).
  replace (ln x / ln 10 * (INR q * ln 10)) with (INR q * ln x)
    by (field; lra).
  exact Hln.
Qed.

Lemma Rlog10_3_bounds : 52 / 109 < Rlog10 3 < 73 / 153.
Proof.
  split.
  - replace (52 / 109) with (INR 52 / INR 109)
      by (rewrite !INR_IZR_INZ; reflexivity).
    apply Rlog10_lower; [lra | lia |].
    rewrite !pow_IZR. apply IZR_lt. vm_compute. reflexivity.
  - replace (73 / 153) with (INR 73 / INR 153)
      by (rewrite !INR_IZR_INZ; reflexivity).
    apply Rlog10_upper; [lra | lia |].
    rewrite !pow_IZR. apply IZR_lt. vm_compute. reflexivity.
Qed.

Lemma Rlog10_10 : Rlog10 10 = 1.
Proof.
  replace 10 with (10 ^ 1) at 1 by ring. rewrite Rlog10_pow10. reflexivity.
Qed.

Lemma Rlog10_hundredth : Rlog10 0.01 = -2.
Proof.
  replace 0.01 with (/ 10 ^ 2) by (simpl; lra).
  rewrite Rlog10_inv by (apply pow_lt; lra).
  rewrite Rlog10_pow10. simpl. ring.
Qed.

Lemma Rlog10_900 : Rlog10 900 = 2 + 2 * Rlog10 3.
Proof.
  replace 900 with (10 ^ 2 * (3 * 3)) by ring.
  rewrite Rlog10_mult, Rlog10_mult, Rlog10_pow10; simpl; try lra.
Qed.

Lemma Rlog10_30 : Rlog10 30 = 1 + Rlog10 3.
Proof.
  replace 30 with (10 ^ 1 * 3) by ring.
  rewrite Rlog10_mult, Rlog10_pow10; simpl; try lra.
Qed.

(* ================================================================== *)
(** * Finite arithmetic *)
(* ================================================================== *)

(** Case analysis on the comparisons of reals that a goal branches on. *)
Ltac decide_reals :=
  repeat match goal with
    | |- context [Rlt_dec ?a ?b] => destruct (Rlt_dec a b); try lra
    | |- context [Rle_dec ?a ?b] => destruct (Rle_dec a b); try lra
    | |- context [Req_dec_T ?a ?b] => destruct (Req_dec_T a b); try lra
    end.

Lemma np_log10_pos (x : R) : 0 < x -> np_log10 (Fin x) = Fin (Rlog10 x).
Proof. intros Hx. unfold np_log10. decide_reals; try reflexivity. Qed.

Lemma np_log10_zero : np_log10 (Fin 0) = NInf.
Proof. unfold np_log10. decide_reals; try reflexivity. Qed.

Lemma np_log10_neg (x : R) : x < 0 -> np_log10 (Fin x) = NaN.
Proof. intros Hx. unfold np_log10. decide_reals; try reflexivity. Qed.

Lemma flt_Fin (x y : R) : x < y -> flt (Fin x) (Fin y) = true.
Proof. intros H. unfold flt. decide_reals; try reflexivity. Qed.

Lemma flt_Fin_ge (x y : R) : y <= x -> flt (Fin x) (Fin y) = false.
Proof. intros H. unfold flt. decide_reals; try reflexivity. Qed.

Lemma fle_Fin (x y : R) : x <= y -> fle (Fin x) (Fin y) = true.
Proof. intros H. unfold fle. decide_reals; try reflexivity. Qed.

Lemma fle_Fin_gt (x y : R) : y < x -> fle (Fin x) (Fin y) = false.
Proof. intros H. unfold fle. decide_reals; try reflexivity. Qed.

Lemma fdiv_Fin (x y : R) : y <> 0 -> fdiv (Fin x) (Fin y) = Fin (x / y).
Proof.
  intros H. unfold fdiv. destruct (Req_dec_T y 0); [contradiction|reflexivity].
Qed.

(** On positive finite arguments the path loss is the real Hata formula. *)
Lemma hata_model_finite (h rx f d : R) (c : string) :
  0 < h -> 0 < f -> 0 < d ->
  hata_model (Fin h) (Fin rx) (Fin f) (Fin d) c = Fin (hata_loss h rx f d).
Proof.
  intros Hh Hf Hd. unfold hata_model, mobile_antenna_correction.
  rewrite !np_log10_pos by assumption. simpl.
  f_equal; unfold hata_loss; ring.
Qed.

Lemma okahamaru_error_finite (h rx f d : R) (c : string) :
  0 < f -> 0 < d ->
  snd (hata_okahamaru_model (Fin h) (Fin rx) (Fin f) (Fin d) c)
  = Fin (2.0 + 0.5 * Rlog10 d + 0.3 * Rlog10 (f / 900)).
Proof.
  intros Hf Hd. unfold hata_okahamaru_model. cbn [snd].
  rewrite fdiv_Fin by lra.
  rewrite !np_log10_pos by (try assumption; apply Rdiv_lt_0_compat; lra).
  reflexivity.
Qed.

(** The two implementations agree on every input. *)
Lemma hata_model_fst
    (tx_height rx_height freq_mhz distance_km : npfloat)
    (city_size city_size' : string) :
  hata_model tx_height rx_height freq_mhz distance_km city_size
  = fst (hata_okahamaru_model tx_height rx_height freq_mhz distance_km
                              city_size').
Proof. reflexivity. Qed.

(** C10. [hata_model] of [radio_coverage_ub.py] returns exactly the first
    component of [hata_okahamaru_model] of [generate_arcgis_coverage.py]:
    on every input and whatever [city_size] either is given; and for a
    positive height, frequency and distance (and a finite receiver height)
    that common value is a finite number, the Hata loss, while the error
    term is the second component and does not enter it. *)
Theorem hata_model_is_first_component :
  (forall (tx_height rx_height freq_mhz distance_km : npfloat)
          (city_size city_size' : string),
     hata_model tx_height rx_height freq_mhz distance_km city_size
     = fst (hata_okahamaru_model tx_height rx_height freq_mhz distance_km
                                 city_size'))
  /\ (forall (h rx f d : R) (city_size city_size' : string),
        0 < h -> 0 < f -> 0 < d ->
        hata_model (Fin h) (Fin rx) (Fin f) (Fin d) city_size
        = Fin (hata_loss h rx f d)
        /\ hata_okahamaru_model (Fin h) (Fin rx) (Fin f) (Fin d) city_size'
           = (Fin (hata_loss h rx f d),
              Fin (2.0 + 0.5 * Rlog10 d + 0.3 * Rlog10 (f / 900)))).
Proof.
  split; [intros; apply hata_model_fst|].
  intros h rx f d city_size city_size' Hh Hf Hd.
  split; [now apply hata_model_finite|].
  rewrite (surjective_pairing (hata_okahamaru_model _ _ _ _ _)).
  rewrite <- (hata_model_fst _ _ _ _ city_size city_size').
  rewrite hata_model_finite, okahamaru_error_finite by assumption.
  reflexivity.
Qed.

Lemma hata_model_is_first_component_witness :
  hata_model (Fin 30) (Fin 1.5) (Fin 900) (Fin 0.01) "large"
  = fst (hata_okahamaru_model (Fin 30) (Fin 1.5) (Fin 900) (Fin 0.01)
                              "large")
  /\ hata_model (Fin 30) (Fin 1.5) (Fin 900) (Fin 0.01) "large"
     = Fin (hata_loss 30 1.5 900 0.01).
Proof.
  destruct hata_model_is_first_component as [Hsame Hfinite].
  split; [apply Hsame|].
  apply (Hfinite 30 1.5 900 0.01 "large" "large"); lra.
Defined.

(** C7, amended.  For a transmitter height [h > 0] with
    [6.55 * log10 h <= 44.9], a frequency [f > 0] and a finite receiver
    height, the path loss is non-decreasing in the distance: for
    [0.01 <= d1 <= d2] the loss at [d1] is at most the loss at [d2]. *)
Theorem path_loss_non_decreasing (h rx f d1 d2 : R) (c : string) :
  0 < h -> 6.55 * Rlog10 h <= 44.9 -> 0 < f ->
  0.01 <= d1 -> d1 <= d2 ->
  fle (fst (hata_okahamaru_model (Fin h) (Fin rx) (Fin f) (Fin d1) c))
      (fst (hata_okahamaru_model (Fin h) (Fin rx) (Fin f) (Fin d2) c))
  = true.
Proof.
  intros Hh Hslope Hf Hd1 Hd12.
  rewrite <- !(hata_model_fst _ _ _ _ c c).
  rewrite !hata_model_finite by lra.
  apply fle_Fin. unfold hata_loss.
  assert (Hlog : Rlog10 d1 <= Rlog10 d2) by (apply Rlog10_le; lra).
  nra.
Qed.

Lemma path_loss_non_decreasing_witness :
  fle (fst (hata_okahamaru_model (Fin 1) (Fin 1.5) (Fin 900) (Fin 1)
                                 "large"))
      (fst (hata_okahamaru_model (Fin 1) (Fin 1.5) (Fin 900) (Fin 10)
                                 "large"))
  = true.
Proof.
  apply (path_loss_non_decreasing 1 1.5 900 1 10 "large"); try lra.
  rewrite Rlog10_1. lra.
Defined.

(** C7 as stated fails for a very tall transmitter: at a height of
    [10^7] m the factor of [log10 distance] is negative, and the loss at
    10 km is below the loss at 1 km. *)
Lemma path_loss_decreasing_for_tall_tower :
  0 < 10000000 /\ 0 < 900 /\ 0.01 <= 1 /\ 1 <= 10 /\
  fle (fst (hata_okahamaru_model (Fin 10000000) (Fin 1.5) (Fin 900) (Fin 1)
                                 "large"))
      (fst (hata_okahamaru_model (Fin 10000000) (Fin 1.5) (Fin 900)
                                 (Fin 10) "large"))
  = false.
Proof.
  repeat (split; [lra|]).
  rewrite <- !(hata_model_fst _ _ _ _ "large" "large").
  rewrite !hata_model_finite by lra.
  apply fle_Fin_gt. unfold hata_loss.
  rewrite Rlog10_1, Rlog10_10.
  replace 10000000 with (10 ^ 7) by ring.
  rewrite Rlog10_pow10. simpl INR. lra.
Qed.

(* ================================================================== *)
(** * One coverage record *)
(* ================================================================== *)

(** The record of the inner loop, field by field, in insertion order. *)
Lemma coverage_point_fields
    (tower_lat tower_lon tower_height tx_power freq_mhz lat lon : npfloat) :
  let distance_km :=
    floor_distance (raw_distance_km tower_lat tower_lon lat lon) in
  let model :=
    hata_okahamaru_model tower_height 1.5 freq_mhz distance_km "large" in
  coverage_point tower_lat tower_lon tower_height tx_power freq_mhz lat lon
  = [ ("Latitude", VNum lat);
      ("Longitude", VNum lon);
      ("Distance_km", VNum distance_km);
      ("Path_Loss_dB", VNum (fst model));
      ("Signal_Strength_dBm", VNum (tx_power - fst model)%npf);
      ("Okahamaru_Error_dB", VNum (snd model));
      ("Environment_Type", VStr (environment_type distance_km)) ].
Proof. reflexivity. Qed.

Lemma raw_distance_finite (tower_lat tower_lon lat lon : R) :
  raw_distance_km (Fin tower_lat) (Fin tower_lon) (Fin lat) (Fin lon)
  = Fin (planar_distance tower_lat tower_lon lat lon).
Proof.
  unfold raw_distance_km, fsquare, planar_distance. simpl.
  match goal with
  | |- context [Rlt_dec (?a * ?a + ?b * ?b) 0] =>
      destruct (Rlt_dec (a * a + b * b) 0) as [Hneg | _];
      [ exfalso; pose proof (Rle_0_sqr a); pose proof (Rle_0_sqr b);
        unfold Rsqr in *; lra | ]
  end.
  f_equal; f_equal; ring.
Qed.

(** C3.  For every tower position and grid point (finite coordinates) and
    whatever the tower's height, power and frequency, the [Distance_km] of
    the record is a finite number, at least 0.01; it is exactly 0.01 when
    the planar distance is below 0.01, and the planar distance itself
    otherwise. *)
Theorem distance_km_floor
    (tower_lat tower_lon lat lon : R)
    (tower_height tx_power freq_mhz : npfloat) :
  exists d : R,
    dict_get (coverage_point (Fin tower_lat) (Fin tower_lon) tower_height
                             tx_power freq_mhz (Fin lat) (Fin lon))
             "Distance_km" = Some (VNum (Fin d))
    /\ 0.01 <= d
    /\ (planar_distance tower_lat tower_lon lat lon < 0.01 -> d = 0.01)
    /\ (0.01 <= planar_distance tower_lat tower_lon lat lon ->
        d = planar_distance tower_lat tower_lon lat lon).
Proof.
  rewrite coverage_point_fields. cbn [dict_get String.eqb Ascii.eqb Bool.eqb].
  rewrite raw_distance_finite. unfold floor_distance, flt.
  destruct (Rlt_dec (planar_distance tower_lat tower_lon lat lon) 0.01)
    as [Hlt | Hge].
  - exists 0.01. repeat split; intros; lra.
  - exists (planar_distance tower_lat tower_lon lat lon).
    repeat split; intros; lra.
Qed.

Lemma distance_km_floor_witness :
  exists d : R,
    dict_get (coverage_point (Fin 47.9212) (Fin 106.9186) (Fin 30) (Fin 43)
                             (Fin 900) (Fin 47.9212) (Fin 106.9186))
             "Distance_km" = Some (VNum (Fin d))
    /\ d = 0.01.
Proof.
  destruct (distance_km_floor 47.9212 106.9186 47.9212 106.9186
                              (Fin 30) (Fin 43) (Fin 900))
    as (d & Hget & _ & Hfloor & _).
  exists d. split; [exact Hget|].
  apply Hfloor. unfold planar_distance.
  replace ((47.9212 - 47.9212) * 111 * ((47.9212 - 47.9212) * 111)
           + (106.9186 - 106.9186) * 111 * cos (47.9212 * (PI / 180))
             * ((106.9186 - 106.9186) * 111 * cos (47.9212 * (PI / 180))))
    with 0 by ring.
  rewrite sqrt_0. lra.
Defined.

(** C5.  The environment label is a step function of the distance with
    inclusive lower edges: [0, 2) is Urban, [2, 5) is Suburban and
    [5, inf) is Rural (so 2 is Suburban and 5 is Rural); and the label of a
    record is this function applied to the record's [Distance_km]. *)
Theorem environment_type_bands :
  (forall d : R, 0 <= d < 2 -> environment_type (Fin d) = "Urban")
  /\ (forall d : R, 2 <= d < 5 -> environment_type (Fin d) = "Suburban")
  /\ (forall d : R, 5 <= d -> environment_type (Fin d) = "Rural")
  /\ environment_type PInf = "Rural"
  /\ (forall tower_lat tower_lon tower_height tx_power freq_mhz lat lon,
        exists distance_km,
          let point := coverage_point tower_lat tower_lon tower_height
                                      tx_power freq_mhz lat lon in
          dict_get point "Distance_km" = Some (VNum distance_km)
          /\ dict_get point "Environment_Type"
             = Some (VStr (environment_type distance_km))).
Proof.
  repeat split.
  - intros d [H0 H2]. unfold environment_type. rewrite flt_Fin by lra.
    reflexivity.
  - intros d [H2 H5]. unfold environment_type.
    rewrite flt_Fin_ge by lra. rewrite flt_Fin by lra. reflexivity.
  - intros d H5. unfold environment_type.
    rewrite !flt_Fin_ge by lra. reflexivity.
  - intros. eexists. rewrite coverage_point_fields.
    split; reflexivity.
Qed.

Lemma environment_type_bands_witness :
  environment_type (Fin 1.999) = "Urban"
  /\ environment_type (Fin 2.0) = "Suburban"
  /\ environment_type (Fin 4.999) = "Suburban"
  /\ environment_type (Fin 5.0) = "Rural".
Proof.
  destruct environment_type_bands as (Hurban & Hsub & Hrural & _).
  repeat split.
  - apply Hurban. lra.
  - apply Hsub. lra.
  - apply Hsub. lra.
  - apply Hrural. lra.
Defined.

(* ================================================================== *)
(** * Propagation of non-finite values *)
(* ================================================================== *)

Lemma scale_inf_not_finite (s : bool) (x : R) :
  is_finite (scale_inf s x) = false.
Proof. unfold scale_inf. decide_reals; destruct s; reflexivity. Qed.

Lemma fadd_finite_inv (a b : npfloat) :
  is_finite (a + b)%npf = true -> is_finite a = true /\ is_finite b = true.
Proof. destruct a, b; simpl; intros H; try discriminate; auto. Qed.

Lemma fsub_finite_inv (a b : npfloat) :
  is_finite (a - b)%npf = true -> is_finite a = true /\ is_finite b = true.
Proof. destruct a, b; simpl; intros H; try discriminate; auto. Qed.

Lemma fmul_finite_inv (a b : npfloat) :
  is_finite (a * b)%npf = true -> is_finite a = true /\ is_finite b = true.
Proof.
  destruct a, b; simpl; intros H; try discriminate; auto;
    rewrite scale_inf_not_finite in H; discriminate.
Qed.

Lemma np_log10_finite_inv (x : R) :
  is_finite (np_log10 (Fin x)) = true -> 0 < x.
Proof.
  unfold np_log10. destruct (Rlt_dec 0 x); [auto|].
  destruct (Rlt_dec x 0); discriminate.
Qed.

(** A finite path loss needs a positive height and a positive frequency. *)
Lemma path_loss_finite_inv (h f : R) (rx d : npfloat) (c : string) :
  is_finite (fst (hata_okahamaru_model (Fin h) rx (Fin f) d c)) = true ->
  0 < h /\ 0 < f.
Proof.
  unfold hata_okahamaru_model. cbn [fst]. intros H.
  apply fadd_finite_inv in H. destruct H as [H _].
  apply fsub_finite_inv in H. destruct H as [H _].
  apply fsub_finite_inv in H. destruct H as [Hf Hh].
  apply fadd_finite_inv in Hf. destruct Hf as [_ Hf].
  apply fmul_finite_inv in Hf. destruct Hf as [_ Hf].
  apply fmul_finite_inv in Hh. destruct Hh as [_ Hh].
  split; now apply np_log10_finite_inv.
Qed.

Lemma path_loss_not_finite (h f : R) (rx d : npfloat) (c : string) :
  h <= 0 \/ f <= 0 ->
  is_finite (fst (hata_okahamaru_model (Fin h) rx (Fin f) d c)) = false.
Proof.
  intros Hbad.
  destruct (is_finite (fst (hata_okahamaru_model (Fin h) rx (Fin f) d c)))
    eqn:Hfin; [|reflexivity].
  apply path_loss_finite_inv in Hfin. lra.
Qed.

(** With a transmitter height of zero and the floor distance the path loss
    is [inf - inf], that is [nan]. *)
Lemma path_loss_zero_height :
  fst (hata_okahamaru_model (Fin 0) (Fin 1.5) (Fin 900) (Fin 0.01) "large")
  = NaN.
Proof.
  unfold hata_okahamaru_model, mobile_antenna_correction. cbn [fst].
  rewrite np_log10_zero.
  rewrite !np_log10_pos by lra.
  rewrite Rlog10_hundredth.
  repeat (cbn; unfold scale_inf, signed_inf; decide_reals).
  reflexivity.
Qed.

(* ================================================================== *)
(** * The scenario at the tower position *)
(* ================================================================== *)

Lemma floor_distance_at_tower (tower_lat tower_lon : R) :
  floor_distance
    (raw_distance_km (Fin tower_lat) (Fin tower_lon)
                     (Fin tower_lat) (Fin tower_lon))
  = Fin 0.01.
Proof.
  rewrite raw_distance_finite. unfold planar_distance.
  replace ((tower_lat - tower_lat) * 111 * ((tower_lat - tower_lat) * 111)
           + (tower_lon - tower_lon) * 111 * cos (tower_lat * (PI / 180))
             * ((tower_lon - tower_lon) * 111
                * cos (tower_lat * (PI / 180))))
    with 0 by ring.
  rewrite sqrt_0. unfold floor_distance. rewrite flt_Fin by lra.
  reflexivity.
Qed.

(** The loss of the 30 m, 900 MHz tower at the floor distance, in terms of
    [log10 3]. *)
Lemma hata_loss_scenario :
  hata_loss 30 1.5 900 0.01 = 31.42 + 51.42 * Rlog10 3.
Proof.
  unfold hata_loss. rewrite Rlog10_900, Rlog10_30, Rlog10_hundredth. lra.
Qed.

Lemma scenario_path_loss_bounds :
  55.9506 < hata_loss 30 1.5 900 0.01 < 55.9538.
Proof.
  rewrite hata_loss_scenario. pose proof Rlog10_3_bounds. lra.
Qed.

Lemma scenario_path_loss :
  fst (hata_okahamaru_model (Fin 30) (Fin 1.5) (Fin 900) (Fin 0.01) "large")
  = Fin (hata_loss 30 1.5 900 0.01).
Proof.
  rewrite <- (hata_model_fst _ _ _ _ "large" "large").
  apply hata_model_finite; lra.
Qed.

Lemma scenario_error :
  snd (hata_okahamaru_model (Fin 30) (Fin 1.5) (Fin 900) (Fin 0.01) "large")
  = Fin 1.
Proof.
  rewrite okahamaru_error_finite by lra.
  replace (900 / 900) with 1 by lra.
  rewrite Rlog10_hundredth, Rlog10_1. f_equal. lra.
Qed.

Lemma scenario_a_hm :
  mobile_antenna_correction (Fin 1.5) (Fin 900)
  = Fin (0.18 * Rlog10 3 - 0.07).
Proof.
  unfold mobile_antenna_correction. rewrite np_log10_pos by lra.
  rewrite Rlog10_900. simpl. f_equal. lra.
Qed.

(** C8, amended.  The tower at (47.9212, 106.9186), 30 m, 43 dBm, 900 MHz,
    at a grid point on the tower: the distance is the floor 0.01, [a_hm] is
    0.0159 to four decimals, the path loss is 55.95 dB and the signal
    strength -12.95 dBm to two decimals, the error term is exactly 1, and
    the environment is Urban. *)
Theorem tower_position_scenario :
  let point :=
    coverage_point (Fin 47.9212) (Fin 106.9186) (Fin 30) (Fin 43) (Fin 900)
                   (Fin 47.9212) (Fin 106.9186) in
  dict_get point "Distance_km" = Some (VNum (Fin 0.01))
  /\ (exists a : R,
        mobile_antenna_correction (Fin 1.5) (Fin 900) = Fin a
        /\ approx a 0.0159 0.00005)
  /\ (exists L : R,
        dict_get point "Path_Loss_dB" = Some (VNum (Fin L))
        /\ approx L 55.95 0.005)
  /\ (exists S : R,
        dict_get point "Signal_Strength_dBm" = Some (VNum (Fin S))
        /\ approx S (-12.95) 0.005)
  /\ dict_get point "Okahamaru_Error_dB" = Some (VNum (Fin 1))
  /\ dict_get point "Environment_Type" = Some (VStr "Urban").
Proof.
  pose proof scenario_path_loss_bounds as HL.
  pose proof Rlog10_3_bounds as H3.
  cbv zeta. rewrite coverage_point_fields. cbv zeta.
  rewrite floor_distance_at_tower, scenario_path_loss, scenario_error.
  cbn [dict_get String.eqb Ascii.eqb Bool.eqb].
  split; [reflexivity|].
  split.
  { eexists. split; [apply scenario_a_hm|].
    unfold approx. apply Rabs_le. lra. }
  split.
  { eexists. split; [reflexivity|].
    unfold approx. apply Rabs_le. lra. }
  split.
  { eexists. split; [reflexivity|].
    unfold approx. apply Rabs_le. lra. }
  split; [reflexivity|].
  unfold environment_type. rewrite flt_Fin by lra. reflexivity.
Qed.

(** C8 as stated fails on the path loss and on the signal strength: the
    path loss is above 55.95, more than 0.01 away from 55.94, and the
    signal strength is below -12.95, more than 0.01 away from -12.94. *)
Lemma tower_position_scenario_not_55_94 :
  let point :=
    coverage_point (Fin 47.9212) (Fin 106.9186) (Fin 30) (Fin 43) (Fin 900)
                   (Fin 47.9212) (Fin 106.9186) in
  exists L S : R,
    dict_get point "Path_Loss_dB" = Some (VNum (Fin L))
    /\ dict_get point "Signal_Strength_dBm" = Some (VNum (Fin S))
    /\ 55.95 < L /\ ~ approx L 55.94 0.01
    /\ S < -12.95 /\ ~ approx S (-12.94) 0.01.
Proof.
  pose proof scenario_path_loss_bounds as HL.
  cbv zeta. rewrite coverage_point_fields. cbv zeta.
  rewrite floor_distance_at_tower, scenario_path_loss.
  cbn [dict_get String.eqb Ascii.eqb Bool.eqb].
  do 2 eexists. split; [reflexivity|]. split; [reflexivity|].
  unfold approx.
  repeat split; try lra.
  - intros Habs.
    match type of Habs with Rabs ?x <= _ => pose proof (Rle_abs x) end.
    lra.
  - intros Habs.
    match type of Habs with
    | Rabs ?x <= _ => pose proof (Rle_abs (- x)) as Hopp;
                      rewrite Rabs_Ropp in Hopp
    end.
    lra.
Qed.

(* ================================================================== *)
(** * Loops that append *)
(* ================================================================== *)

Section Loops.

Context {I B : Type}.

(** A loop whose every round appends [g x] is one [flat_map]. *)
Lemma for_each_append
    (xs : list I) (body : I -> list B -> py (list B)) (g : I -> list B) :
  (forall x acc, In x xs -> body x acc = Ok (acc ++ g x)) ->
  forall s, for_each xs body s = Ok (s ++ flat_map g xs).
Proof.
  induction xs as [|x xs IH]; intros Hbody s; simpl.
  - now rewrite app_nil_r.
  - rewrite Hbody by now left. simpl.
    rewrite IH by (intros; apply Hbody; now right).
    now rewrite app_assoc.
Qed.

(** A block-wise address into a [flat_map] whose blocks all have [m]
    elements. *)
Lemma nth_error_flat_map_block
    (f : I -> list B) (m : nat) (l : list I) :
  (forall x, In x l -> List.length (f x) = m) ->
  forall (i j : nat) (a : I),
    nth_error l i = Some a -> (j < m)%nat ->
    nth_error (flat_map f l) (i * m + j) = nth_error (f a) j.
Proof.
  induction l as [|x l IH]; intros Hlen i j a Hi Hj.
  - destruct i; discriminate.
  - destruct i as [|i]; simpl in Hi |- *.
    + injection Hi as ->. apply nth_error_app1.
      rewrite Hlen by now left. exact Hj.
    + rewrite nth_error_app2 by (rewrite Hlen by (now left); lia).
      rewrite Hlen by now left.
      replace (m + i * m + j - m)%nat with (i * m + j)%nat by lia.
      apply IH; auto. intros; apply Hlen; now right.
Qed.

Lemma length_flat_map_block (f : I -> list B) (m : nat) (l : list I) :
  (forall x, In x l -> List.length (f x) = m) ->
  List.length (flat_map f l) = (List.length l * m)%nat.
Proof.
  induction l as [|x l IH]; intros Hlen; simpl; [reflexivity|].
  rewrite length_app, Hlen by now left.
  rewrite IH by (intros; apply Hlen; now right). reflexivity.
Qed.

Lemma flat_map_singleton (f : I -> B) (l : list I) :
  flat_map (fun x => [f x]) l = map f l.
Proof.
  induction l as [|x l IH]; simpl; [reflexivity|]. now rewrite IH.
Qed.

End Loops.

Lemma getitem_nth {A : Type} (l : list A) (i : nat) (d : A) :
  (i < List.length l)%nat -> getitem l i = Ok (nth i l d).
Proof.
  intros Hi. unfold getitem.
  rewrite (nth_error_nth' l d Hi). reflexivity.
Qed.

Lemma has_shape_row (r c : nat) (m : matrix) (i : nat) :
  has_shape r c m -> (i < r)%nat -> List.length (nth i m []) = c.
Proof.
  intros [Hr Hc] Hi. rewrite Forall_forall in Hc.
  apply Hc. apply nth_In. lia.
Qed.

Lemma length_tower_block point r c grid_lats grid_lons :
  List.length (tower_block point r c grid_lats grid_lons) = (r * c)%nat.
Proof.
  unfold tower_block.
  rewrite (length_flat_map_block _ c).
  - now rewrite length_seq.
  - intros i _. now rewrite length_map, length_seq.
Qed.

Lemma nth_error_tower_block point r c grid_lats grid_lons (i j : nat) :
  (i < r)%nat -> (j < c)%nat ->
  nth_error (tower_block point r c grid_lats grid_lons) (i * c + j)
  = Some (point (nth j (nth i grid_lats []) NaN)
                (nth j (nth i grid_lons []) NaN)).
Proof.
  intros Hi Hj. unfold tower_block.
  rewrite (nth_error_flat_map_block _ c _) with (a := i).
  - rewrite nth_error_map.
    rewrite (nth_error_nth' _ O) by (rewrite length_seq; exact Hj).
    rewrite seq_nth by exact Hj. reflexivity.
  - intros x _. now rewrite length_map, length_seq.
  - rewrite (nth_error_nth' _ O) by (rewrite length_seq; exact Hi).
    rewrite seq_nth by exact Hi. reflexivity.
  - exact Hj.
Qed.

Lemma in_tower_block point r c grid_lats grid_lons (rec : dict) :
  In rec (tower_block point r c grid_lats grid_lons) ->
  exists lat lon, rec = point lat lon.
Proof.
  unfold tower_block. rewrite in_flat_map.
  intros (i & _ & Hin). rewrite in_map_iff in Hin.
  destruct Hin as (j & <- & _). eauto.
Qed.

(** On a well-shaped grid the loops of [calculate_coverage_for_tower] raise
    nothing and return the block of the tower. *)
Lemma calculate_coverage_for_tower_block
    (tower_lat tower_lon tower_height tx_power freq_mhz : npfloat)
    (grid_lats grid_lons : matrix) (r c : nat) :
  has_shape r c grid_lats -> has_shape r c grid_lons ->
  calculate_coverage_for_tower tower_lat tower_lon tower_height tx_power
                               freq_mhz grid_lats grid_lons
  = Ok (tower_block
          (coverage_point tower_lat tower_lon tower_height tx_power
                          freq_mhz)
          r c grid_lats grid_lons).
Proof.
  intros Hlats Hlons.
  unfold calculate_coverage_for_tower, for_range, tower_block.
  destruct Hlats as [Hr Hrows]. rewrite Hr.
  change (@nil dict) with (@nil dict ++ []) at 1.
  rewrite (for_each_append _ _
    (fun i =>
       map (fun j =>
              coverage_point tower_lat tower_lon tower_height tx_power
                freq_mhz (nth j (nth i grid_lats []) NaN)
                (nth j (nth i grid_lons []) NaN))
           (seq 0 c))); [reflexivity|].
  intros i acc Hi. apply in_seq in Hi.
  rewrite (getitem_nth grid_lats 0 []) by lia. cbn [bind].
  rewrite (has_shape_row r c grid_lats 0) by (try split; auto; lia).
  rewrite (for_each_append _ _
    (fun j =>
       [coverage_point tower_lat tower_lon tower_height tx_power
          freq_mhz (nth j (nth i grid_lats []) NaN)
          (nth j (nth i grid_lons []) NaN)])).
  - now rewrite flat_map_singleton.
  - intros j acc' Hj. apply in_seq in Hj.
    rewrite (getitem_nth grid_lats i []) by lia. cbn [bind].
    rewrite (getitem_nth _ j NaN)
      by (rewrite (has_shape_row r c grid_lats i) by (try split; auto; lia);
          lia).
    cbn [bind].
    rewrite (getitem_nth grid_lons i [])
      by (destruct Hlons as [-> _]; lia).
    cbn [bind].
    rewrite (getitem_nth _ j NaN)
      by (rewrite (has_shape_row r c grid_lons i) by (auto; lia); lia).
    reflexivity.
Qed.

Lemma map_tower_block (f : dict -> dict) point r c grid_lats grid_lons :
  map f (tower_block point r c grid_lats grid_lons)
  = tower_block (fun lat lon => f (point lat lon)) r c grid_lats grid_lons.
Proof.
  unfold tower_block.
  induction (seq 0 r) as [|i rows IH]; simpl; [reflexivity|].
  now rewrite map_app, map_map, IH.
Qed.

(** On a well-shaped grid the loop over the towers raises nothing and
    returns the blocks of the towers, one after the other. *)
Lemma all_coverage_data_blocks
    (towers : list Tower) (grid_lats grid_lons : matrix) (r c : nat) :
  has_shape r c grid_lats -> has_shape r c grid_lons ->
  all_coverage_data towers grid_lats grid_lons
  = Ok (flat_map
          (fun tower => tower_block (tower_record tower) r c
                                    grid_lats grid_lons)
          towers).
Proof.
  intros Hlats Hlons. unfold all_coverage_data.
  change (@nil dict) with (@nil dict ++ []) at 1.
  rewrite (for_each_append _ _
    (fun tower => tower_block (tower_record tower) r c grid_lats
                              grid_lons)); [reflexivity|].
  intros tower acc _.
  rewrite (calculate_coverage_for_tower_block _ _ _ _ _ _ _ r c)
    by assumption.
  cbn [bind]. now rewrite map_tower_block.
Qed.

(** A property of the accumulated variable that every round of a loop
    keeps holds when the loop ends. *)
Lemma for_each_invariant {I S : Type} (P : S -> Prop)
    (xs : list I) (body : I -> S -> py S) :
  (forall x s s', In x xs -> P s -> body x s = Ok s' -> P s') ->
  forall s r, P s -> for_each xs body s = Ok r -> P r.
Proof.
  induction xs as [|x xs IH]; intros Hbody s r Hs Hrun; simpl in Hrun.
  - now injection Hrun as <-.
  - destruct (body x s) as [s'|e] eqn:Hstep; [|discriminate].
    simpl in Hrun.
    apply (IH (fun y t t' Hy => Hbody y t t' (or_intror Hy)) s' r);
      [|exact Hrun].
    apply (Hbody x s s'); auto. now left.
Qed.

(** Whatever the grid, a record that [calculate_coverage_for_tower] returns
    is the record of the tower at some pair of coordinates. *)
Lemma calculate_coverage_for_tower_records
    (tower_lat tower_lon tower_height tx_power freq_mhz : npfloat)
    (grid_lats grid_lons : matrix) (data : list dict) :
  calculate_coverage_for_tower tower_lat tower_lon tower_height tx_power
                               freq_mhz grid_lats grid_lons = Ok data ->
  Forall (fun rec => exists lat lon,
            rec = coverage_point tower_lat tower_lon tower_height tx_power
                                 freq_mhz lat lon) data.
Proof.
  unfold calculate_coverage_for_tower, for_range.
  apply for_each_invariant; [|constructor].
  intros i acc acc' _ Hacc.
  destruct (getitem grid_lats 0) as [row0|e]; [|discriminate]. cbn [bind].
  revert acc acc' Hacc.
  intros acc acc'. revert acc'.
  apply for_each_invariant.
  intros j s s' _ Hs.
  destruct (getitem grid_lats i) as [lats_i|e]; [|discriminate]. cbn [bind].
  destruct (getitem lats_i j) as [lat|e]; [|discriminate]. cbn [bind].
  destruct (getitem grid_lons i) as [lons_i|e]; [|discriminate]. cbn [bind].
  destruct (getitem lons_i j) as [lon|e]; [|discriminate]. cbn [bind].
  intros [= <-]. apply Forall_app. split; [assumption|].
  constructor; [eauto|constructor].
Qed.

(** Whatever the grid, a record of the dataset is the record of one of the
    towers at some pair of coordinates. *)
Lemma all_coverage_data_records
    (towers : list Tower) (grid_lats grid_lons : matrix)
    (data : list dict) :
  all_coverage_data towers grid_lats grid_lons = Ok data ->
  Forall (fun rec => exists tower lat lon,
            In tower towers /\ rec = tower_record tower lat lon) data.
Proof.
  unfold all_coverage_data.
  apply for_each_invariant; [|constructor].
  intros tower acc acc' Hin Hacc.
  destruct (calculate_coverage_for_tower _ _ _ _ _ _ _) as [block|e]
    eqn:Hblock; [|discriminate].
  cbn [bind]. intros [= <-].
  apply Forall_app. split; [assumption|].
  apply calculate_coverage_for_tower_records in Hblock.
  rewrite Forall_forall in Hblock |- *.
  intros rec Hrec. rewrite in_map_iff in Hrec.
  destruct Hrec as (point & <- & Hpoint).
  destruct (Hblock point Hpoint) as (lat & lon & ->).
  exists tower, lat, lon. split; [assumption|reflexivity].
Qed.

(** The record of a tower at a grid point after [point.update], field by
    field, in insertion order. *)
Lemma tower_record_fields (tower : Tower) (lat lon : npfloat) :
  let distance_km :=
    floor_distance (raw_distance_km (t_lat tower) (t_lon tower) lat lon) in
  let model :=
    hata_okahamaru_model (t_height tower) 1.5 (t_freq tower) distance_km
                         "large" in
  tower_record tower lat lon
  = [ ("Latitude", VNum lat);
      ("Longitude", VNum lon);
      ("Distance_km", VNum distance_km);
      ("Path_Loss_dB", VNum (fst model));
      ("Signal_Strength_dBm", VNum (t_power tower - fst model)%npf);
      ("Okahamaru_Error_dB", VNum (snd model));
      ("Environment_Type", VStr (environment_type distance_km));
      ("Tower_Lat", VNum (t_lat tower));
      ("Tower_Lon", VNum (t_lon tower));
      ("Tower_Height_m", VNum (t_height tower));
      ("Tower_Power_dBm", VNum (t_power tower));
      ("Frequency_MHz", VNum (t_freq tower));
      ("Cell_ID", VStr (t_id tower));
      ("Tower_Type", VStr (t_type tower));
      ("Model_Type", VStr "Hata_Okahamaru") ].
Proof. reflexivity. Qed.

(** C6.  For [T] towers and an [N] by [N] grid the aggregator raises
    nothing and returns exactly [T * N * N] records; the record at position
    [t * N * N + i * N + j] is the one of tower [t] (in configuration
    order) at the grid point of row [i] and column [j], so that no record
    is dropped or merged and each tower's block is in row-major order. *)
Theorem dataset_cardinality_and_order
    (towers : list Tower) (grid_lats grid_lons : matrix) (N : nat) :
  has_shape N N grid_lats -> has_shape N N grid_lons ->
  exists data,
    all_coverage_data towers grid_lats grid_lons = Ok data
    /\ List.length data = (List.length towers * (N * N))%nat
    /\ forall (t i j : nat) (tower : Tower),
         nth_error towers t = Some tower -> (i < N)%nat -> (j < N)%nat ->
         nth_error data (t * (N * N) + (i * N + j))
         = Some (tower_record tower
                   (nth j (nth i grid_lats []) NaN)
                   (nth j (nth i grid_lons []) NaN)).
Proof.
  intros Hlats Hlons. eexists. split.
  - apply (all_coverage_data_blocks towers grid_lats grid_lons N N);
      assumption.
  - split.
    + apply length_flat_map_block. intros tower _.
      apply length_tower_block.
    + intros t i j tower Ht Hi Hj.
      rewrite (nth_error_flat_map_block _ (N * N) towers) with (a := tower).
      * now apply nth_error_tower_block.
      * intros x _. apply length_tower_block.
      * exact Ht.
      * nia.
Qed.

Lemma dataset_cardinality_and_order_witness :
  exists data,
    all_coverage_data
      [ mkTower 47.9212 106.9186 30 43 900 "TOWER_001" "Communication_Tower";
        mkTower 47.9250 106.9200 25 40 900 "TOWER_002" "Antenna" ]
      [ [Fin 47.9; Fin 48.0]; [Fin 47.9; Fin 48.0] ]
      [ [Fin 106.9; Fin 106.9]; [Fin 107.0; Fin 107.0] ] = Ok data
    /\ List.length data = 8%nat.
Proof.
  destruct (dataset_cardinality_and_order
              [ mkTower 47.9212 106.9186 30 43 900 "TOWER_001"
                        "Communication_Tower";
                mkTower 47.9250 106.9200 25 40 900 "TOWER_002" "Antenna" ]
              [ [Fin 47.9; Fin 48.0]; [Fin 47.9; Fin 48.0] ]
              [ [Fin 106.9; Fin 106.9]; [Fin 107.0; Fin 107.0] ] 2)
    as (data & Hrun & Hlen & _).
  - split; [reflexivity | repeat constructor].
  - split; [reflexivity | repeat constructor].
  - exists data. split; [exact Hrun | exact Hlen].
Defined.

(** C4.  In every record of the dataset the signal strength is the tower's
    power minus the record's path loss, and that path loss is the plain
    Hata loss at the record's distance: the error term is stored in its own
    field and enters neither the path loss nor the signal strength. *)
Theorem signal_strength_is_power_minus_path_loss
    (towers : list Tower) (grid_lats grid_lons : matrix)
    (data : list dict) (rec : dict) :
  all_coverage_data towers grid_lats grid_lons = Ok data ->
  In rec data ->
  exists (tower : Tower) (distance_km path_loss : npfloat),
    In tower towers
    /\ dict_get rec "Tower_Power_dBm" = Some (VNum (t_power tower))
    /\ dict_get rec "Distance_km" = Some (VNum distance_km)
    /\ dict_get rec "Path_Loss_dB" = Some (VNum path_loss)
    /\ dict_get rec "Signal_Strength_dBm"
       = Some (VNum (t_power tower - path_loss)%npf)
    /\ path_loss
       = hata_model (t_height tower) 1.5 (t_freq tower) distance_km "large"
    /\ dict_get rec "Okahamaru_Error_dB"
       = Some (VNum (snd (hata_okahamaru_model
                            (t_height tower) 1.5 (t_freq tower)
                            distance_km "large"))).
Proof.
  intros Hrun Hin.
  apply all_coverage_data_records in Hrun.
  rewrite Forall_forall in Hrun.
  destruct (Hrun rec Hin) as (tower & lat & lon & Htower & ->).
  rewrite tower_record_fields. cbv zeta.
  exists tower. do 2 eexists.
  split; [exact Htower|].
  repeat split; reflexivity.
Qed.

Lemma signal_strength_is_power_minus_path_loss_witness :
  let tower :=
    mkTower 47.9212 106.9186 30 43 900 "TOWER_001" "Communication_Tower" in
  exists (distance_km path_loss : npfloat),
    dict_get (tower_record tower 47.9212 106.9186) "Signal_Strength_dBm"
    = Some (VNum (Fin 43 - path_loss)%npf)
    /\ path_loss = hata_model 30 1.5 900 distance_km "large".
Proof.
  intros tower.
  destruct (signal_strength_is_power_minus_path_loss
              [tower] [[Fin 47.9212]] [[Fin 106.9186]]
              [tower_record tower 47.9212 106.9186]
              (tower_record tower 47.9212 106.9186))
    as (tw & d & L & Htw & _ & _ & _ & Hsignal & Hloss & _).
  - reflexivity.
  - left. reflexivity.
  - destruct Htw as [<- | []].
    exists d, L. split; [exact Hsignal | exact Hloss].
Defined.

(** C1, amended.  Nothing validates the transmitter height or the
    frequency.  For [tx_height <= 0] or [freq_mhz <= 0] the model raises no
    error and returns a pair whose path loss is not a finite number
    ([nan], [inf] or [-inf]); over a well-shaped grid
    [calculate_coverage_for_tower] likewise raises nothing and returns one
    record per grid point, each with a non-finite [Path_Loss_dB]. *)
Theorem non_positive_height_or_frequency_not_rejected
    (h f : R) (tower_lat tower_lon tx_power : npfloat)
    (grid_lats grid_lons : matrix) (r c : nat) :
  h <= 0 \/ f <= 0 ->
  has_shape r c grid_lats -> has_shape r c grid_lons ->
  (forall (rx_height distance_km : npfloat) (city_size : string),
     is_finite (fst (hata_okahamaru_model (Fin h) rx_height (Fin f)
                                          distance_km city_size)) = false)
  /\ exists data,
       calculate_coverage_for_tower tower_lat tower_lon (Fin h) tx_power
                                    (Fin f) grid_lats grid_lons = Ok data
       /\ List.length data = (r * c)%nat
       /\ forall point, In point data ->
            exists path_loss,
              dict_get point "Path_Loss_dB" = Some (VNum path_loss)
              /\ is_finite path_loss = false.
Proof.
  intros Hbad Hlats Hlons. split.
  - intros. now apply path_loss_not_finite.
  - eexists. split.
    + apply (calculate_coverage_for_tower_block _ _ _ _ _ _ _ r c);
        assumption.
    + split; [apply length_tower_block|].
      intros point Hin. apply in_tower_block in Hin.
      destruct Hin as (lat & lon & ->).
      rewrite coverage_point_fields. cbv zeta.
      eexists. split; [reflexivity|].
      now apply path_loss_not_finite.
Qed.

Lemma non_positive_height_or_frequency_not_rejected_witness :
  exists data,
    calculate_coverage_for_tower 47.9212 106.9186 (Fin 0) 43 (Fin 900)
                                 [[Fin 47.9212]] [[Fin 106.9186]] = Ok data
    /\ List.length data = 1%nat.
Proof.
  destruct (non_positive_height_or_frequency_not_rejected
              0 900 47.9212 106.9186 43
              [[Fin 47.9212]] [[Fin 106.9186]] 1 1)
    as (_ & data & Hrun & Hlen & _).
  - left. lra.
  - split; [reflexivity | repeat constructor].
  - split; [reflexivity | repeat constructor].
  - exists data. split; [exact Hrun | exact Hlen].
Defined.

(** C1 as stated fails: with a transmitter height of zero, at a grid point
    on the tower, [calculate_coverage_for_tower] does not fail; it returns
    the record, and the path loss in it is [nan]. *)
Lemma zero_height_returns_nan :
  0 <= 0
  /\ ~ fails_fast
         (calculate_coverage_for_tower 47.9212 106.9186 (Fin 0) 43 (Fin 900)
                                       [[Fin 47.9212]] [[Fin 106.9186]])
  /\ exists point,
       calculate_coverage_for_tower 47.9212 106.9186 (Fin 0) 43 (Fin 900)
                                    [[Fin 47.9212]] [[Fin 106.9186]]
       = Ok [point]
       /\ dict_get point "Path_Loss_dB" = Some (VNum NaN).
Proof.
  assert (Hrun :
    calculate_coverage_for_tower 47.9212 106.9186 (Fin 0) 43 (Fin 900)
                                 [[Fin 47.9212]] [[Fin 106.9186]]
    = Ok [coverage_point 47.9212 106.9186 (Fin 0) 43 (Fin 900)
                         47.9212 106.9186]) by reflexivity.
  split; [lra|]. split.
  - intros [e He]. rewrite Hrun in He. discriminate.
  - eexists. split; [exact Hrun|].
    rewrite coverage_point_fields. cbv zeta.
    rewrite floor_distance_at_tower, path_loss_zero_height.
    reflexivity.
Qed.

(* ================================================================== *)
(** * The grid *)
(* ================================================================== *)

Lemma length_set_last {A : Type} (l : list A) (v : A) :
  List.length (set_last l v) = List.length l.
Proof.
  induction l as [|x [|y l] IH]; simpl in *; auto.
Qed.

Lemma np_linspace_length (start stop : npfloat) (num : Z) :
  (0 <= num)%Z ->
  exists l, np_linspace start stop num = Ok l
            /\ List.length l = Z.to_nat num.
Proof.
  intros Hnum. unfold np_linspace.
  destruct (num <? 0)%Z eqn:Hneg; [apply Z.ltb_lt in Hneg; lia|].
  eexists. split; [reflexivity|].
  destruct (1 <? num)%Z; destruct (0 <? num - 1)%Z;
    try destruct (feqb _ _);
    rewrite ?length_set_last, !length_map, length_seq; reflexivity.
Qed.

Lemma np_meshgrid_shape (x y : list npfloat) :
  has_shape (List.length y) (List.length x) (fst (np_meshgrid x y))
  /\ has_shape (List.length y) (List.length x) (snd (np_meshgrid x y)).
Proof.
  unfold np_meshgrid, has_shape. cbn [fst snd]. repeat split.
  - apply repeat_length.
  - apply Forall_forall. intros row Hrow.
    apply repeat_spec in Hrow. now subst.
  - apply length_map.
  - apply Forall_forall. intros row Hrow. apply in_map_iff in Hrow.
    destruct Hrow as (v & <- & _). apply repeat_length.
Qed.

(** For a grid size [N >= 0] the grid generator raises nothing and returns
    two [N] by [N] matrices. *)
Lemma generate_coverage_grid_shape
    (center_lat center_lon : npfloat) (grid_size : Z) (area_km : npfloat) :
  (0 <= grid_size)%Z ->
  exists grid_lats grid_lons,
    generate_coverage_grid center_lat center_lon grid_size area_km
    = Ok (grid_lats, grid_lons)
    /\ has_shape (Z.to_nat grid_size) (Z.to_nat grid_size) grid_lats
    /\ has_shape (Z.to_nat grid_size) (Z.to_nat grid_size) grid_lons.
Proof.
  intros Hsize. unfold generate_coverage_grid.
  destruct (np_linspace_length
              (center_lat - (area_km / 111) / 2)%npf
              (center_lat + (area_km / 111) / 2)%npf grid_size Hsize)
    as (lats & -> & Hlats).
  destruct (np_linspace_length
              (center_lon
               - (area_km / (111 * np_cos (np_radians center_lat))) / 2)%npf
              (center_lon
               + (area_km / (111 * np_cos (np_radians center_lat))) / 2)%npf
              grid_size Hsize)
    as (lons & -> & Hlons).
  cbn [bind].
  exists (fst (np_meshgrid lats lons)), (snd (np_meshgrid lats lons)).
  split; [reflexivity|].
  rewrite <- Hlats at 2 4. rewrite <- Hlons at 1 2.
  apply np_meshgrid_shape.
Qed.

(* ================================================================== *)
(** * The frame and its columns *)
(* ================================================================== *)

Lemma keys_tower_record (tower : Tower) (lat lon : npfloat) :
  keys (tower_record tower lat lon) = record_keys.
Proof. reflexivity. Qed.

Lemma columns_same_keys (records : list dict) :
  Forall (fun d => keys d = record_keys) records ->
  fold_left (fun acc d => union_keys acc (keys d)) records record_keys
  = record_keys.
Proof.
  induction 1 as [|d records Hd _ IH]; simpl; [reflexivity|].
  rewrite Hd. exact IH.
Qed.

(** Records that all carry [record_keys] give a frame with these columns,
    unless there is no record at all. *)
Lemma pd_DataFrame_columns (records : list dict) :
  records <> [] ->
  Forall (fun d => keys d = record_keys) records ->
  columns (pd_DataFrame records) = record_keys.
Proof.
  intros Hne Hkeys. destruct records as [|d records]; [contradiction|].
  inversion Hkeys as [|? ? Hd Hrest]; subst.
  unfold pd_DataFrame. cbn [columns fold_left].
  rewrite Hd. now apply columns_same_keys.
Qed.

Lemma pd_DataFrame_rows (records : list dict) :
  rows (pd_DataFrame records)
  = map (fun d =>
           map (fun c => match dict_get d c with
                         | Some v => v
                         | None => VNum NaN
                         end) (columns (pd_DataFrame records)))
        records.
Proof. reflexivity. Qed.

Lemma positions_column_order :
  positions record_keys column_order
  = Ok [0; 1; 7; 8; 9; 10; 11; 2; 3; 4; 5; 12; 13; 6; 14]%nat.
Proof. reflexivity. Qed.

(** Selecting [column_order] from the frame of a non-empty list of tower
    records succeeds, and the records of the result are the export
    records. *)
Lemma df_getitem_tower_records (records : list dict) :
  records <> [] ->
  Forall (fun d => exists tower lat lon, d = tower_record tower lat lon)
         records ->
  exists df,
    df_getitem (pd_DataFrame records) column_order = Ok df
    /\ columns df = column_order
    /\ List.length (rows df) = List.length records
    /\ Forall2 (fun d rec => exists tower lat lon,
                  d = tower_record tower lat lon
                  /\ rec = export_record tower lat lon)
               records (df_records df).
Proof.
  intros Hne Hrecs.
  assert (Hkeys : Forall (fun d => keys d = record_keys) records).
  { eapply Forall_impl; [|exact Hrecs].
    intros d (tower & lat & lon & ->). apply keys_tower_record. }
  unfold df_getitem.
  rewrite (pd_DataFrame_columns records Hne Hkeys).
  rewrite positions_column_order. cbn [bind].
  eexists. split; [reflexivity|].
  split; [reflexivity|].
  unfold df_records. cbn [columns rows].
  split; [unfold pd_DataFrame; cbn [rows]; now rewrite !length_map|].
  rewrite pd_DataFrame_rows.
  rewrite (pd_DataFrame_columns records Hne Hkeys).
  clear Hne Hkeys.
  induction Hrecs as [|d records (tower & lat & lon & ->) _ IH]; simpl.
  - constructor.
  - constructor; [|exact IH].
    exists tower, lat, lon. split; reflexivity.
Qed.

Lemma Forall2_keys (records : list dict) (out : list dict) :
  Forall2 (fun d rec => exists tower lat lon,
             d = tower_record tower lat lon
             /\ rec = export_record tower lat lon) records out ->
  forall rec, In rec out -> keys rec = column_order.
Proof.
  induction 1 as [|d rec records out (tower & lat & lon & _ & ->) _ IH];
    intros rec' [].
  - subst. reflexivity.
  - now apply IH.
Qed.

(** With at least one tower and a grid size of at least one, the whole
    chain (grid, towers, frame, column selection) raises nothing; the
    resulting frame has the columns [column_order], one row per tower and
    grid point, and its records are export records. *)
Lemma coverage_dataframe_ok
    (towers : list Tower) (center_lat center_lon : npfloat)
    (grid_size : Z) (area_km : npfloat) :
  towers <> [] -> (1 <= grid_size)%Z ->
  exists df,
    coverage_dataframe towers center_lat center_lon grid_size area_km
    = Ok df
    /\ columns df = column_order
    /\ List.length (rows df)
       = (List.length towers
          * (Z.to_nat grid_size * Z.to_nat grid_size))%nat
    /\ List.length (df_records df) = List.length (rows df)
    /\ forall rec, In rec (df_records df) -> keys rec = column_order.
Proof.
  intros Htowers Hsize.
  destruct (generate_coverage_grid_shape center_lat center_lon grid_size
                                         area_km)
    as (grid_lats & grid_lons & Hgrid & Hlats & Hlons); [lia|].
  unfold coverage_dataframe. rewrite Hgrid. cbn [bind].
  pose proof (all_coverage_data_records towers grid_lats grid_lons) as Hrecs.
  rewrite (all_coverage_data_blocks towers grid_lats grid_lons _ _ Hlats
                                    Hlons) in Hrecs |- *.
  cbn [bind].
  set (data := flat_map _ towers) in *.
  assert (Hlen : List.length data
                 = (List.length towers
                    * (Z.to_nat grid_size * Z.to_nat grid_size))%nat).
  { apply length_flat_map_block. intros tower _. apply length_tower_block. }
  assert (Hne : data <> []).
  { intros Hnil. rewrite Hnil in Hlen. simpl in Hlen.
    destruct towers as [|tower towers']; [contradiction|].
    simpl in Hlen. nia. }
  specialize (Hrecs data eq_refl).
  destruct (df_getitem_tower_records data Hne) as (df & Hdf & Hcols & Hrows
                                                   & Hout).
  { eapply Forall_impl; [|exact Hrecs].
    intros d (tower & lat & lon & _ & ->). eauto. }
  exists df. split; [exact Hdf|]. split; [exact Hcols|].
  split; [now rewrite Hrows|].
  split; [unfold df_records; apply length_map|].
  now apply (Forall2_keys data).
Qed.

(** C2, amended.  With at least one tower and a grid size of at least one,
    the frame that is exported has the columns, and every record of it the
    fields, in this order: Latitude, Longitude, Tower_Lat, Tower_Lon,
    Tower_Height_m, Tower_Power_dBm, Frequency_MHz, Distance_km,
    Path_Loss_dB, Signal_Strength_dBm, Okahamaru_Error_dB, Cell_ID,
    Tower_Type, Environment_Type, Model_Type. *)
Theorem exported_field_order
    (towers : list Tower) (center_lat center_lon : npfloat)
    (grid_size : Z) (area_km : npfloat) :
  towers <> [] -> (1 <= grid_size)%Z ->
  exists df,
    coverage_dataframe towers center_lat center_lon grid_size area_km
    = Ok df
    /\ columns df = column_order
    /\ forall rec, In rec (df_records df) ->
         keys rec
         = [ "Latitude"; "Longitude"; "Tower_Lat"; "Tower_Lon";
             "Tower_Height_m"; "Tower_Power_dBm"; "Frequency_MHz";
             "Distance_km"; "Path_Loss_dB"; "Signal_Strength_dBm";
             "Okahamaru_Error_dB"; "Cell_ID"; "Tower_Type";
             "Environment_Type"; "Model_Type" ].
Proof.
  intros Htowers Hsize.
  destruct (coverage_dataframe_ok towers center_lat center_lon grid_size
                                  area_km Htowers Hsize)
    as (df & Hdf & Hcols & _ & _ & Hkeys).
  exists df. split; [exact Hdf|]. split; [exact Hcols|]. exact Hkeys.
Qed.

Lemma exported_field_order_witness :
  exists df,
    coverage_dataframe towers 47.9212 106.9186 30 15 = Ok df
    /\ columns df = column_order.
Proof.
  destruct (exported_field_order towers 47.9212 106.9186 30 15)
    as (df & Hdf & Hcols & _).
  - discriminate.
  - lia.
  - exists df. split; [exact Hdf | exact Hcols].
Defined.

(** C2 as stated fails on the program as it is configured: the frame it
    writes has 9000 records, each with the eleventh field named
    [Okahamaru_Error_dB], so none has the field list of the
    specification. *)
Lemma exported_fields_differ_from_spec :
  exists df,
    generate_arcgis_coverage_csv "20250101_000000"
    = Ok ("radio_coverage_arcgis_20250101_000000.csv", df)
    /\ List.length (df_records df) = (10 * (30 * 30))%nat
    /\ forall rec, In rec (df_records df) -> keys rec <> spec_field_order.
Proof.
  destruct (coverage_dataframe_ok towers 47.9212 106.9186 30 15)
    as (df & Hdf & _ & Hrows & Hlen & Hkeys); [discriminate | lia |].
  exists df. unfold generate_arcgis_coverage_csv. rewrite Hdf.
  split; [reflexivity|].
  split; [rewrite Hlen, Hrows; reflexivity|].
  intros rec Hin. rewrite (Hkeys rec Hin). discriminate.
Qed.

(** C9.  The dataset is a function of the tower list and the grid
    configuration alone: equal arguments give equal frames and equal grids,
    and the one thing a run reads from outside, the clock, reaches the file
    name only: every run of the program, whatever the time, writes one and
    the same frame. *)
Theorem coverage_is_deterministic :
  (forall towers1 towers2 center_lat1 center_lat2 center_lon1 center_lon2
          grid_size1 grid_size2 area_km1 area_km2,
     towers1 = towers2 -> center_lat1 = center_lat2 ->
     center_lon1 = center_lon2 -> grid_size1 = grid_size2 ->
     area_km1 = area_km2 ->
     coverage_dataframe towers1 center_lat1 center_lon1 grid_size1 area_km1
     = coverage_dataframe towers2 center_lat2 center_lon2 grid_size2
                          area_km2)
  /\ (forall center_lat1 center_lat2 center_lon1 center_lon2
             grid_size1 grid_size2 area_km1 area_km2,
        center_lat1 = center_lat2 -> center_lon1 = center_lon2 ->
        grid_size1 = grid_size2 -> area_km1 = area_km2 ->
        generate_coverage_grid center_lat1 center_lon1 grid_size1 area_km1
        = generate_coverage_grid center_lat2 center_lon2 grid_size2
                                 area_km2)
  /\ (forall timestamp1 timestamp2,
        dataset_of (generate_arcgis_coverage_csv timestamp1)
        = dataset_of (generate_arcgis_coverage_csv timestamp2))
  /\ exists df, forall timestamp,
       generate_arcgis_coverage_csv timestamp
       = Ok (("radio_coverage_arcgis_" ++ timestamp ++ ".csv")%string, df).
Proof.
  split; [intros; subst; reflexivity|].
  split; [intros; subst; reflexivity|].
  split.
  - intros timestamp1 timestamp2. unfold generate_arcgis_coverage_csv.
    destruct (coverage_dataframe towers 47.9212 106.9186 30 15);
      reflexivity.
  - destruct (coverage_dataframe_ok towers 47.9212 106.9186 30 15)
      as (df & Hdf & _); [discriminate | lia |].
    exists df. intros timestamp. unfold generate_arcgis_coverage_csv.
    rewrite Hdf. reflexivity.
Qed.

Lemma coverage_is_deterministic_witness :
  coverage_dataframe towers 47.9212 106.9186 30 15
  = coverage_dataframe towers 47.9212 106.9186 30 15
  /\ generate_coverage_grid 47.9212 106.9186 30 15
     = generate_coverage_grid 47.9212 106.9186 30 15
  /\ dataset_of (generate_arcgis_coverage_csv "20250101_000000")
     = dataset_of (generate_arcgis_coverage_csv "20251231_235959").
Proof.
  destruct coverage_is_deterministic as (Hframe & Hgrid & Hclock & _).
  split; [apply Hframe; reflexivity|].
  split; [apply Hgrid; reflexivity|].
  apply Hclock.
Defined.

(* ================================================================== *)
(** * Further properties of the propagation model *)
(* ================================================================== *)

(** The error term does not look at the two heights. *)
Lemma okahamaru_error_value (h rx : npfloat) (f d : R) (c : string) :
  0 < f -> 0 < d ->
  snd (hata_okahamaru_model h rx (Fin f) (Fin d) c)
  = Fin (2.0 + 0.5 * Rlog10 d + 0.3 * Rlog10 (f / 900)).
Proof.
  intros Hf Hd. unfold hata_okahamaru_model. cbn [snd].
  rewrite fdiv_Fin by lra.
  rewrite !np_log10_pos by (try assumption; apply Rdiv_lt_0_compat; lra).
  reflexivity.
Qed.

(** X1.  The Okahamaru error term grows with the distance and with the
    frequency, and is the same for every pair of antenna heights. *)
Theorem okahamaru_error_grows_with_distance_and_frequency
    (h rx h' rx' : npfloat) (f1 f2 d1 d2 : R) (c c' : string) :
  0 < f1 -> f1 <= f2 -> 0 < d1 -> d1 <= d2 ->
  fle (snd (hata_okahamaru_model h rx (Fin f1) (Fin d1) c))
      (snd (hata_okahamaru_model h' rx' (Fin f2) (Fin d2) c')) = true.
Proof.
  intros Hf1 Hf Hd1 Hd.
  rewrite !okahamaru_error_value by lra.
  apply fle_Fin.
  assert (Hlogd : Rlog10 d1 <= Rlog10 d2) by (apply Rlog10_le; lra).
  assert (Hlogf : Rlog10 (f1 / 900) <= Rlog10 (f2 / 900)).
  { apply Rlog10_le; [apply Rdiv_lt_0_compat; lra|].
    apply Rmult_le_compat_r; lra. }
  lra.
Qed.

Lemma okahamaru_error_grows_with_distance_and_frequency_witness :
  fle (snd (hata_okahamaru_model 30 1.5 (Fin 900) (Fin 0.01) "large"))
      (snd (hata_okahamaru_model 20 1.5 (Fin 1800) (Fin 5) "large")) = true.
Proof.
  apply (okahamaru_error_grows_with_distance_and_frequency
           30 1.5 20 1.5 900 1800 0.01 5 "large" "large"); lra.
Defined.

(** X2.  Ten times the distance adds [44.9 - 6.55 * log10 tx_height] dB to the
    path loss, whatever the distance, the frequency and the receiver
    height. *)
Theorem path_loss_per_decade (h rx f d : R) (c : string) :
  0 < h -> 0 < f -> 0 < d ->
  exists L : R,
    hata_model (Fin h) (Fin rx) (Fin f) (Fin d) c = Fin L
    /\ hata_model (Fin h) (Fin rx) (Fin f) (Fin (10 * d)) c
       = Fin (L + (44.9 - 6.55 * Rlog10 h)).
Proof.
  intros Hh Hf Hd. exists (hata_loss h rx f d).
  rewrite !hata_model_finite by lra.
  split; [reflexivity|]. f_equal. unfold hata_loss.
  rewrite Rlog10_mult by lra. rewrite Rlog10_10. ring.
Qed.

Lemma path_loss_per_decade_witness :
  exists L : R,
    hata_model (Fin 30) (Fin 1.5) (Fin 900) (Fin 1) "large" = Fin L
    /\ hata_model (Fin 30) (Fin 1.5) (Fin 900) (Fin (10 * 1)) "large"
       = Fin (L + (44.9 - 6.55 * Rlog10 30)).
Proof.
  apply (path_loss_per_decade 30 1.5 900 1 "large"); lra.
Defined.

Lemma floor_distance_Rmax (tower_lat tower_lon lat lon : R) :
  floor_distance (raw_distance_km (Fin tower_lat) (Fin tower_lon)
                                  (Fin lat) (Fin lon))
  = Fin (Rmax 0.01 (planar_distance tower_lat tower_lon lat lon)).
Proof.
  rewrite raw_distance_finite. unfold floor_distance, flt.
  destruct (Rlt_dec (planar_distance tower_lat tower_lon lat lon) 0.01).
  - now rewrite Rmax_left by lra.
  - now rewrite Rmax_right by lra.
Qed.

(** The fields of a record for a finite, positive configuration. *)
Lemma coverage_point_finite
    (tower_lat tower_lon h p f lat lon : R) :
  0 < h -> 0 < f ->
  let d := Rmax 0.01 (planar_distance tower_lat tower_lon lat lon) in
  coverage_point (Fin tower_lat) (Fin tower_lon) (Fin h) (Fin p)
                 (Fin f) (Fin lat) (Fin lon)
  = [ ("Latitude", VNum (Fin lat));
      ("Longitude", VNum (Fin lon));
      ("Distance_km", VNum (Fin d));
      ("Path_Loss_dB", VNum (Fin (hata_loss h 1.5 f d)));
      ("Signal_Strength_dBm", VNum (Fin (p - hata_loss h 1.5 f d)));
      ("Okahamaru_Error_dB",
       VNum (Fin (2.0 + 0.5 * Rlog10 d + 0.3 * Rlog10 (f / 900))));
      ("Environment_Type", VStr (environment_type (Fin d))) ].
Proof.
  intros Hh Hf d.
  assert (Hd : 0.01 <= d) by apply Rmax_l.
  rewrite coverage_point_fields. cbv zeta. rewrite floor_distance_Rmax.
  fold d.
  rewrite <- (hata_model_fst _ _ _ _ "large" "large").
  rewrite hata_model_finite by lra.
  rewrite okahamaru_error_value by lra.
  reflexivity.
Qed.



Lemma hata_loss_height (h1 h2 rx f d : R) :
  0 < h1 -> h1 <= h2 -> 0.01 <= d ->
  hata_loss h2 rx f d <= hata_loss h1 rx f d.
Proof.
  intros Hh1 Hh Hd. unfold hata_loss.
  assert (Hlogh : Rlog10 h1 <= Rlog10 h2) by (apply Rlog10_le; lra).
  assert (Hlogd : -2 <= Rlog10 d).
  { rewrite <- Rlog10_hundredth. apply Rlog10_le; lra. }
  nra.
Qed.

Lemma hata_loss_frequency (h rx f1 f2 d : R) :
  0 < f1 -> f1 <= f2 -> rx <= 25.2 ->
  hata_loss h rx f1 d <= hata_loss h rx f2 d.
Proof.
  intros Hf1 Hf Hrx. unfold hata_loss.
  assert (Hlogf : Rlog10 f1 <= Rlog10 f2) by (apply Rlog10_le; lra).
  nra.
Qed.

(** X4.  At every grid point a taller tower, or one on a lower frequency, is
    never received weaker: with the distance floor of 0.01 km the signal
    strength of a record is non-decreasing in the tower height and
    non-increasing in the frequency. *)
Theorem signal_strength_height_and_frequency
    (tower_lat tower_lon p lat lon h1 h2 f1 f2 : R) :
  0 < h1 -> h1 <= h2 -> 0 < f2 -> f2 <= f1 ->
  exists S1 S2 : R,
    dict_get (coverage_point (Fin tower_lat) (Fin tower_lon) (Fin h1)
                             (Fin p) (Fin f1) (Fin lat) (Fin lon))
             "Signal_Strength_dBm" = Some (VNum (Fin S1))
    /\ dict_get (coverage_point (Fin tower_lat) (Fin tower_lon) (Fin h2)
                                (Fin p) (Fin f2) (Fin lat) (Fin lon))
                "Signal_Strength_dBm" = Some (VNum (Fin S2))
    /\ S1 <= S2.
Proof.
  intros Hh1 Hh Hf2 Hf.
  rewrite !coverage_point_finite by lra. cbv zeta.
  do 2 eexists. split; [reflexivity|]. split; [reflexivity|].
  set (d := Rmax 0.01 (planar_distance tower_lat tower_lon lat lon)).
  assert (Hd : 0.01 <= d) by apply Rmax_l.
  pose proof (hata_loss_height h1 h2 1.5 f1 d Hh1 Hh Hd).
  pose proof (hata_loss_frequency h2 1.5 f2 f1 d Hf2 Hf).
  lra.
Qed.

Lemma signal_strength_height_and_frequency_witness :
  exists S1 S2 : R,
    dict_get (coverage_point (Fin 47.9212) (Fin 106.9186) (Fin 20)
                             (Fin 43) (Fin 1800) (Fin 47.93) (Fin 106.92))
             "Signal_Strength_dBm" = Some (VNum (Fin S1))
    /\ dict_get (coverage_point (Fin 47.9212) (Fin 106.9186) (Fin 40)
                                (Fin 43) (Fin 900) (Fin 47.93) (Fin 106.92))
                "Signal_Strength_dBm" = Some (VNum (Fin S2))
    /\ S1 <= S2.
Proof.
  apply (signal_strength_height_and_frequency
           47.9212 106.9186 43 47.93 106.92 20 40 1800 900); lra.
Defined.

(* ================================================================== *)
(** * Further properties of the grid *)
(* ================================================================== *)

Lemma nth_set_last {A : Type} (l : list A) (v d : A) (k : nat) :
  (k < List.length l)%nat ->
  nth k (set_last l v) d
  = if Nat.eqb (S k) (List.length l) then v else nth k l d.
Proof.
  revert k. induction l as [|x l IH]; intros k Hk; [simpl in Hk; lia|].
  destruct l as [|y l].
  - simpl in Hk. assert (k = 0)%nat as -> by lia. reflexivity.
  - destruct k as [|k].
    + reflexivity.
    + change (set_last (x :: y :: l) v) with (x :: set_last (y :: l) v).
      cbn [nth]. rewrite IH by (simpl in Hk |- *; lia).
      reflexivity.
Qed.

Lemma nth_map_seq {A : Type} (g : nat -> A) (n k : nat) (d : A) :
  (k < n)%nat -> nth k (map g (seq 0 n)) d = g k.
Proof.
  intros Hk. apply nth_error_nth. rewrite nth_error_map.
  rewrite (nth_error_nth' _ O) by (rewrite length_seq; exact Hk).
  rewrite seq_nth by exact Hk. reflexivity.
Qed.

(** The samples of [np.linspace] between two finite ends: sample [k] is
    [a + k * (b - a) / (num - 1)]; a single sample is the start. *)
Lemma np_linspace_samples (a b : R) (num : Z) :
  (1 <= num)%Z ->
  exists l,
    np_linspace (Fin a) (Fin b) num = Ok l
    /\ List.length l = Z.to_nat num
    /\ forall k, (k < Z.to_nat num)%nat ->
         nth k l NaN = Fin (a + INR k * ((b - a) / IZR (num - 1))).
Proof.
  intros Hnum.
  destruct (np_linspace_length (Fin a) (Fin b) num) as (l & Hl & Hlen);
    [lia|].
  exists l. split; [exact Hl|]. split; [exact Hlen|].
  clear Hlen. intros k Hk. unfold np_linspace in Hl.
  destruct (num <? 0)%Z eqn:Hneg; [apply Z.ltb_lt in Hneg; lia|].
  injection Hl as <-.
  destruct (0 <? num - 1)%Z eqn:Hdiv.
  - apply Z.ltb_lt in Hdiv.
    assert (Hdiv' : IZR (num - 1) <> 0).
    { apply not_0_IZR. lia. }
    assert (Hone : (1 <? num)%Z = true) by (apply Z.ltb_lt; lia).
    rewrite Hone.
    rewrite nth_set_last
      by (destruct (feqb _ _); rewrite !length_map, length_seq; exact Hk).
    destruct (Nat.eqb (S k) _) eqn:Hlast.
    + apply Nat.eqb_eq in Hlast.
      assert (Hk' : S k = Z.to_nat num).
      { rewrite Hlast. destruct (feqb _ _);
          now rewrite !length_map, length_seq. }
      f_equal. rewrite INR_IZR_INZ.
      replace (Z.of_nat k) with (num - 1)%Z by lia.
      field. exact Hdiv'.
    + destruct (Req_dec_T (IZR (num - 1)) 0) as [|_]; [contradiction|].
      destruct (feqb _ _) eqn:Hzero.
      * unfold feqb in Hzero.
        destruct (Req_dec_T ((b + - a) / IZR (num - 1)) 0) as [Hstep|];
          [|discriminate].
        rewrite !map_map. rewrite nth_map_seq by exact Hk.
        rewrite fdiv_Fin by exact Hdiv'. cbn [fmul fadd].
        f_equal. field. exact Hdiv'.
      * rewrite !map_map. rewrite nth_map_seq by exact Hk.
        cbn [fmul fadd]. f_equal. unfold Rminus. ring.
  - apply Z.ltb_ge in Hdiv. assert (num = 1)%Z as -> by lia.
    simpl in Hk. assert (k = 0)%nat as -> by lia.
    change (Z.to_nat 1) with 1%nat. cbn. apply f_equal. ring.
Qed.

Lemma nth_repeat_rows (row : list npfloat) (n i : nat) :
  (i < n)%nat -> nth i (repeat row n) [] = row.
Proof.
  intros Hi. apply nth_error_nth. now apply nth_error_repeat.
Qed.

Lemma nth_repeat_cols (l : list npfloat) (n i j : nat) :
  (i < List.length l)%nat -> (j < n)%nat ->
  nth j (nth i (map (fun v => repeat v n) l) []) NaN = nth i l NaN.
Proof.
  intros Hi Hj.
  rewrite (nth_error_nth (map (fun v => repeat v n) l) i []
                         (x := repeat (nth i l NaN) n)).
  - apply nth_error_nth. now apply nth_error_repeat.
  - rewrite nth_error_map, (nth_error_nth' l NaN Hi). reflexivity.
Qed.

(** The generated matrices, entry by entry, in terms of the two
    [linspace] vectors: the first matrix repeats the latitudes along every
    row, the second repeats one longitude along each row. *)
Lemma generate_coverage_grid_entries
    (center_lat center_lon : npfloat) (grid_size : Z) (area_km : npfloat)
    (lats lons : list npfloat) :
  np_linspace (center_lat - (area_km / 111) / 2)%npf
              (center_lat + (area_km / 111) / 2)%npf grid_size = Ok lats ->
  np_linspace
    (center_lon
     - (area_km / (111 * np_cos (np_radians center_lat))) / 2)%npf
    (center_lon
     + (area_km / (111 * np_cos (np_radians center_lat))) / 2)%npf
    grid_size = Ok lons ->
  List.length lats = Z.to_nat grid_size ->
  List.length lons = Z.to_nat grid_size ->
  exists grid_lats grid_lons,
    generate_coverage_grid center_lat center_lon grid_size area_km
    = Ok (grid_lats, grid_lons)
    /\ forall i j,
         (i < Z.to_nat grid_size)%nat -> (j < Z.to_nat grid_size)%nat ->
         nth j (nth i grid_lats []) NaN = nth j lats NaN
         /\ nth j (nth i grid_lons []) NaN = nth i lons NaN.
Proof.
  intros Hlats Hlons Hnlats Hnlons.
  unfold generate_coverage_grid. rewrite Hlats, Hlons. cbn [bind].
  do 2 eexists. split; [reflexivity|].
  intros i j Hi Hj. split.
  - rewrite nth_repeat_rows by (rewrite Hnlons; exact Hi). reflexivity.
  - apply nth_repeat_cols; [rewrite Hnlons; exact Hi|].
    rewrite Hnlats. exact Hj.
Qed.

(** The closed form of the generated grid. *)
Lemma generate_coverage_grid_closed_form
    (center_lat center_lon area_km : R) (grid_size : Z) :
  (1 <= grid_size)%Z ->
  cos (center_lat * (PI / 180)) <> 0 ->
  let D := area_km / 111 in
  let E := area_km / (111 * cos (center_lat * (PI / 180))) in
  exists grid_lats grid_lons,
    generate_coverage_grid (Fin center_lat) (Fin center_lon) grid_size
                           (Fin area_km) = Ok (grid_lats, grid_lons)
    /\ forall i j,
         (i < Z.to_nat grid_size)%nat -> (j < Z.to_nat grid_size)%nat ->
         nth j (nth i grid_lats []) NaN
         = Fin (center_lat - D / 2 + INR j * (D / IZR (grid_size - 1)))
         /\ nth j (nth i grid_lons []) NaN
            = Fin (center_lon - E / 2 + INR i * (E / IZR (grid_size - 1))).
Proof.
  intros Hsize Hcos D E.
  assert (Hdlat : (Fin area_km / 111)%npf = Fin D).
  { apply fdiv_Fin. lra. }
  assert (Hdlon :
    (Fin area_km / (111 * np_cos (np_radians (Fin center_lat))))%npf
    = Fin E).
  { cbn [np_radians np_cos fmul]. apply fdiv_Fin.
    apply Rmult_integral_contrapositive_currified; [lra | exact Hcos]. }
  destruct (np_linspace_samples (center_lat + - (D / 2))
                                (center_lat + D / 2) grid_size Hsize)
    as (lats & Hlats & Hnlats & Hlat).
  destruct (np_linspace_samples (center_lon + - (E / 2))
                                (center_lon + E / 2) grid_size Hsize)
    as (lons & Hlons & Hnlons & Hlon).
  destruct (generate_coverage_grid_entries
              (Fin center_lat) (Fin center_lon) grid_size (Fin area_km)
              lats lons) as (grid_lats & grid_lons & Hgrid & Hentries).
  - rewrite Hdlat. rewrite fdiv_Fin by lra. exact Hlats.
  - rewrite Hdlon. rewrite fdiv_Fin by lra. exact Hlons.
  - exact Hnlats.
  - exact Hnlons.
  - exists grid_lats, grid_lons. split; [exact Hgrid|].
    intros i j Hi Hj. destruct (Hentries i j Hi Hj) as [-> ->].
    rewrite (Hlat j Hj), (Hlon i Hi).
    split; f_equal.
    + replace (center_lat + D / 2 - (center_lat + - (D / 2))) with D by lra.
      lra.
    + replace (center_lon + E / 2 - (center_lon + - (E / 2))) with E by lra.
      lra.
Qed.

Lemma cos_degrees_pos (lat : R) :
  -90 < lat < 90 -> 0 < cos (lat * (PI / 180)).
Proof.
  intros [Hlow Hhigh]. pose proof PI_RGT_0 as Hpi.
  apply cos_gt_0; nra.
Qed.

(** X5.  The coordinates of the generated grid.  For a finite centre and extent,
    a latitude whose cosine is not zero and a grid size [N >= 1], the point
    of row [i] and column [j] has the latitude
    [center_lat - D/2 + j * D/(N-1)] with [D = area_km / 111] and the
    longitude [center_lon - E/2 + i * E/(N-1)] with
    [E = area_km / (111 * cos center_lat)]: the latitude runs along the
    rows of the matrices, the longitude down their columns, and a grid of
    one point is the south-west corner, not the centre. *)
Theorem grid_coordinates
    (center_lat center_lon area_km : R) (grid_size : Z) :
  (1 <= grid_size)%Z ->
  cos (center_lat * (PI / 180)) <> 0 ->
  let D := area_km / 111 in
  let E := area_km / (111 * cos (center_lat * (PI / 180))) in
  exists grid_lats grid_lons,
    generate_coverage_grid (Fin center_lat) (Fin center_lon) grid_size
                           (Fin area_km) = Ok (grid_lats, grid_lons)
    /\ forall i j,
         (i < Z.to_nat grid_size)%nat -> (j < Z.to_nat grid_size)%nat ->
         nth j (nth i grid_lats []) NaN
         = Fin (center_lat - D / 2 + INR j * (D / IZR (grid_size - 1)))
         /\ nth j (nth i grid_lons []) NaN
            = Fin (center_lon - E / 2 + INR i * (E / IZR (grid_size - 1))).
Proof.
  intros Hsize Hcos.
  exact (generate_coverage_grid_closed_form center_lat center_lon area_km
                                            grid_size Hsize Hcos).
Qed.

Lemma grid_coordinates_witness :
  exists grid_lats grid_lons,
    generate_coverage_grid (Fin 47.9212) (Fin 106.9186) 30 (Fin 15)
    = Ok (grid_lats, grid_lons)
    /\ nth 29 (nth 0 grid_lats []) NaN
       = Fin (47.9212 - 15 / 111 / 2 + INR 29 * (15 / 111 / IZR (30 - 1))).
Proof.
  destruct (grid_coordinates 47.9212 106.9186 15 30)
    as (gl & gn & Hgrid & Hat).
  - lia.
  - apply Rgt_not_eq. apply cos_degrees_pos. lra.
  - exists gl, gn. split; [exact Hgrid|].
    apply (Hat 0%nat 29%nat); apply Nat.ltb_lt; reflexivity.
Defined.

(** X7.  A negative grid size is rejected, by [np.linspace], with
    [ValueError], whatever the centre and the extent. *)
Theorem negative_grid_size_raises
    (center_lat center_lon area_km : npfloat) (grid_size : Z) :
  (grid_size < 0)%Z ->
  generate_coverage_grid center_lat center_lon grid_size area_km
  = Raise ValueError.
Proof.
  intros Hneg. unfold generate_coverage_grid, np_linspace.
  apply Z.ltb_lt in Hneg. rewrite Hneg. reflexivity.
Qed.

Lemma negative_grid_size_raises_witness :
  generate_coverage_grid 47.9212 106.9186 (-1) 15 = Raise ValueError.
Proof.
  apply negative_grid_size_raises. lia.
Defined.






(* ================================================================== *)
(** * Grids of unequal shape *)
(* ================================================================== *)

Lemma for_each_app {I S : Type} (xs ys : list I) (body : I -> S -> py S)
    (s : S) :
  for_each (xs ++ ys) body s
  = (s' <- for_each xs body s ;; for_each ys body s').
Proof.
  revert s. induction xs as [|x xs IH]; intros s; simpl; [reflexivity|].
  destruct (body x s); simpl; [apply IH | reflexivity].
Qed.

Lemma getitem_out {A : Type} (l : list A) (i : nat) :
  (List.length l <= i)%nat -> getitem l i = Raise IndexError.
Proof.
  intros Hi. unfold getitem.
  now rewrite (proj2 (nth_error_None l i) Hi).
Qed.

Lemma calculate_coverage_for_tower_rows
    (tower_lat tower_lon tower_height tx_power freq_mhz : npfloat)
    (grid_lats grid_lons : matrix) :
  calculate_coverage_for_tower tower_lat tower_lon tower_height tx_power
                               freq_mhz grid_lats grid_lons
  = for_range (List.length grid_lats) (fun i coverage_data =>
      row0 <- getitem grid_lats 0 ;;
      coverage_row tower_lat tower_lon tower_height tx_power freq_mhz
                   grid_lats grid_lons (List.length row0) i coverage_data)
      [].
Proof. reflexivity. Qed.

Section UnequalShapes.

Variables (tower_lat tower_lon tower_height tx_power freq_mhz : npfloat).
Variables (grid_lats grid_lons : matrix) (r c r' c' : nat).
Hypothesis Hlats : has_shape r c grid_lats.
Hypothesis Hlons : has_shape r' c' grid_lons.

Let point := coverage_point tower_lat tower_lon tower_height tx_power
                            freq_mhz.
Let row := coverage_row tower_lat tower_lon tower_height tx_power freq_mhz
                        grid_lats grid_lons.

(** The first [n] columns of row [i], when both matrices have them. *)
Lemma coverage_row_ok (n i : nat) (acc : list dict) :
  (i < r)%nat -> (i < r')%nat -> (n <= c)%nat -> (n <= c')%nat ->
  row n i acc
  = Ok (acc ++
        map (fun j => point (nth j (nth i grid_lats []) NaN)
                            (nth j (nth i grid_lons []) NaN))
            (seq 0 n)).
Proof.
  intros Hi Hi' Hn Hn'. unfold row, coverage_row, for_range.
  rewrite <- flat_map_singleton.
  apply for_each_append.
  intros j acc' Hj. apply in_seq in Hj.
  pose proof Hlats as [Hr _]. pose proof Hlons as [Hr' _].
  rewrite (getitem_nth grid_lats i []) by lia. cbn [bind].
  rewrite (getitem_nth _ j NaN)
    by (rewrite (has_shape_row r c grid_lats i Hlats Hi); lia).
  cbn [bind].
  rewrite (getitem_nth grid_lons i []) by lia. cbn [bind].
  rewrite (getitem_nth _ j NaN)
    by (rewrite (has_shape_row r' c' grid_lons i Hlons Hi'); lia).
  reflexivity.
Qed.

(** A row that the second matrix lacks, or has too short, stops the loop
    with [IndexError]. *)
Lemma coverage_row_raises (i : nat) (acc : list dict) :
  (i < r)%nat -> (1 <= c)%nat -> (r' <= i)%nat \/ (c' < c)%nat ->
  row c i acc = Raise IndexError.
Proof.
  intros Hi Hc Hbad.
  pose proof Hlats as [Hr _]. pose proof Hlons as [Hr' _].
  destruct (Nat.le_gt_cases r' i) as [Hrow | Hrow].
  - unfold row, coverage_row, for_range.
    destruct c as [|c0]; [lia|]. cbn [seq for_each].
    rewrite (getitem_nth grid_lats i []) by lia. cbn [bind].
    rewrite (getitem_nth _ 0 NaN)
      by (rewrite (has_shape_row r (S c0) grid_lats i Hlats Hi); lia).
    cbn [bind].
    rewrite (getitem_out grid_lons i) by lia. reflexivity.
  - destruct Hbad as [Hbad | Hcols]; [lia|].
    unfold row, coverage_row, for_range.
    replace c with (c' + (c - c'))%nat at 1 by lia.
    rewrite seq_app, for_each_app.
    fold (for_range c'
            (fun j coverage_data =>
               lats_i <- getitem grid_lats i ;;
               lat <- getitem lats_i j ;;
               lons_i <- getitem grid_lons i ;;
               lon <- getitem lons_i j ;;
               Ok (coverage_data ++
                   [coverage_point tower_lat tower_lon tower_height
                                   tx_power freq_mhz lat lon])) acc).
    fold (coverage_row tower_lat tower_lon tower_height tx_power freq_mhz
                       grid_lats grid_lons c' i acc).
    fold row. rewrite coverage_row_ok by lia. cbn [bind].
    destruct (c - c')%nat as [|rest] eqn:Hrest; [lia|].
    cbn [seq for_each Nat.add].
    rewrite (getitem_nth grid_lats i []) by lia. cbn [bind].
    rewrite (getitem_nth _ c' NaN)
      by (rewrite (has_shape_row r c grid_lats i Hlats Hi); lia).
    cbn [bind].
    rewrite (getitem_nth grid_lons i []) by lia. cbn [bind].
    rewrite (getitem_out _ c')
      by (rewrite (has_shape_row r' c' grid_lons i Hlons Hrow); lia).
    reflexivity.
Qed.

Lemma first_row_length :
  (1 <= r)%nat ->
  exists row0, getitem grid_lats 0 = Ok row0 /\ List.length row0 = c.
Proof.
  intros Hr. exists (nth 0 grid_lats []). split.
  - apply getitem_nth. pose proof Hlats as [-> _]. lia.
  - apply (has_shape_row r c); [exact Hlats | lia].
Qed.

(** The first [n] rows, when the second matrix covers them. *)
Lemma coverage_rows_ok (n : nat) :
  (n <= r)%nat -> (n <= r')%nat -> (c <= c')%nat ->
  for_range n (fun i coverage_data =>
      row0 <- getitem grid_lats 0 ;;
      row (List.length row0) i coverage_data) []
  = Ok (tower_block point n c grid_lats grid_lons).
Proof.
  intros Hn Hn' Hc. unfold for_range, tower_block.
  rewrite (for_each_append _ _
    (fun i => map (fun j => point (nth j (nth i grid_lats []) NaN)
                                  (nth j (nth i grid_lons []) NaN))
                  (seq 0 c))); [reflexivity|].
  intros i acc Hi. apply in_seq in Hi.
  destruct first_row_length as (row0 & -> & Hrow0); [lia|]. cbn [bind].
    rewrite Hrow0.
  apply coverage_row_ok; lia.
Qed.

(** A second matrix with at least the rows and columns of the first is
    read on the shape of the first; what it has beyond is ignored. *)
Lemma larger_second_matrix :
  (r <= r')%nat -> (c <= c')%nat ->
  calculate_coverage_for_tower tower_lat tower_lon tower_height tx_power
                               freq_mhz grid_lats grid_lons
  = Ok (tower_block point r c grid_lats grid_lons).
Proof.
  intros Hr Hc. rewrite calculate_coverage_for_tower_rows.
  pose proof Hlats as [Hlen _]. rewrite Hlen.
  apply coverage_rows_ok; lia.
Qed.

(** A second matrix with fewer rows or fewer columns than the first stops
    the loops with [IndexError]; no record is returned. *)
Lemma smaller_second_matrix :
  (1 <= r)%nat -> (1 <= c)%nat -> (r' < r)%nat \/ (c' < c)%nat ->
  calculate_coverage_for_tower tower_lat tower_lon tower_height tx_power
                               freq_mhz grid_lats grid_lons
  = Raise IndexError.
Proof.
  intros Hr Hc Hbad. rewrite calculate_coverage_for_tower_rows.
  pose proof Hlats as [Hlen _]. rewrite Hlen.
  destruct (Nat.le_gt_cases c c') as [Hcols | Hcols].
  - destruct Hbad as [Hrows | Hcols']; [|lia].
    pose proof (coverage_rows_ok r' ltac:(lia) ltac:(lia) Hcols) as Hfirst.
    unfold for_range, row in Hfirst |- *.
    replace r with (r' + (r - r'))%nat by lia.
    rewrite seq_app, for_each_app, Hfirst. cbn [bind].
    destruct (r - r')%nat as [|rest] eqn:Hrest; [lia|].
    cbn [seq for_each Nat.add].
    destruct first_row_length as (row0 & -> & Hrow0); [lia|]. cbn [bind].
    rewrite Hrow0.
    pose proof (coverage_row_raises r'
                  (tower_block point r' c grid_lats grid_lons)
                  ltac:(lia) Hc ltac:(lia)) as Hraise.
    unfold row in Hraise. rewrite Hraise. reflexivity.
  - unfold for_range.
    replace r with (S (r - 1)) by lia.
    cbn [seq for_each].
    destruct first_row_length as (row0 & -> & Hrow0); [lia|]. cbn [bind].
    rewrite Hrow0.
    pose proof (coverage_row_raises 0 [] ltac:(lia) Hc ltac:(lia))
      as Hraise.
    unfold row in Hraise. rewrite Hraise. reflexivity.
Qed.

End UnequalShapes.

(** X9.  The two matrices are never compared.  When the second has fewer rows
    or fewer columns than the first (which has at least one of each), the
    loops stop with [IndexError] and no record is returned. *)
Theorem smaller_second_matrix_raises
    (tower_lat tower_lon tower_height tx_power freq_mhz : npfloat)
    (grid_lats grid_lons : matrix) (r c r' c' : nat) :
  has_shape r c grid_lats -> has_shape r' c' grid_lons ->
  (1 <= r)%nat -> (1 <= c)%nat -> (r' < r)%nat \/ (c' < c)%nat ->
  calculate_coverage_for_tower tower_lat tower_lon tower_height tx_power
                               freq_mhz grid_lats grid_lons
  = Raise IndexError.
Proof.
  intros Hlats Hlons. now apply smaller_second_matrix.
Qed.

Lemma smaller_second_matrix_raises_witness :
  calculate_coverage_for_tower 47.9212 106.9186 30 43 900
    [ [Fin 47.9; Fin 48.0]; [Fin 47.9; Fin 48.0] ]
    [ [Fin 106.9; Fin 106.9] ]
  = Raise IndexError.
Proof.
  apply (smaller_second_matrix_raises _ _ _ _ _ _ _ 2 2 1 2).
  - split; [reflexivity | repeat constructor].
  - split; [reflexivity | repeat constructor].
  - lia.
  - lia.
  - left. lia.
Defined.

(** X10.  When the second matrix has at least the rows and the columns of the
    first, the result is the block over the shape of the first matrix:
    the rows and columns the second has beyond it are ignored without an
    error. *)
Theorem larger_second_matrix_is_truncated
    (tower_lat tower_lon tower_height tx_power freq_mhz : npfloat)
    (grid_lats grid_lons : matrix) (r c r' c' : nat) :
  has_shape r c grid_lats -> has_shape r' c' grid_lons ->
  (r <= r')%nat -> (c <= c')%nat ->
  exists data,
    calculate_coverage_for_tower tower_lat tower_lon tower_height tx_power
                                 freq_mhz grid_lats grid_lons = Ok data
    /\ List.length data = (r * c)%nat
    /\ forall i j, (i < r)%nat -> (j < c)%nat ->
         nth_error data (i * c + j)
         = Some (coverage_point tower_lat tower_lon tower_height tx_power
                                freq_mhz
                                (nth j (nth i grid_lats []) NaN)
                                (nth j (nth i grid_lons []) NaN)).
Proof.
  intros Hlats Hlons Hr Hc. eexists. split.
  - apply (larger_second_matrix _ _ _ _ _ _ _ r c r' c'); assumption.
  - split; [apply length_tower_block|].
    intros i j Hi Hj. now apply nth_error_tower_block.
Qed.

Lemma larger_second_matrix_is_truncated_witness :
  exists data,
    calculate_coverage_for_tower 47.9212 106.9186 30 43 900
      [ [Fin 47.9] ]
      [ [Fin 106.9; Fin 107.0]; [Fin 106.9; Fin 107.0] ] = Ok data
    /\ List.length data = 1%nat.
Proof.
  destruct (larger_second_matrix_is_truncated
              47.9212 106.9186 30 43 900
              [ [Fin 47.9] ]
              [ [Fin 106.9; Fin 107.0]; [Fin 106.9; Fin 107.0] ] 1 1 2 2)
    as (data & Hrun & Hlen & _).
  - split; [reflexivity | repeat constructor].
  - split; [reflexivity | repeat constructor].
  - lia.
  - lia.
  - exists data. split; [exact Hrun | exact Hlen].
Defined.

(** X11.  A first matrix without rows, or with rows of no column, gives an empty
    list of records and no error, whatever the second matrix is: it is not
    looked at. *)
Theorem empty_grid_gives_no_records
    (tower_lat tower_lon tower_height tx_power freq_mhz : npfloat)
    (grid_lats grid_lons : matrix) (r : nat) :
  has_shape r 0 grid_lats ->
  calculate_coverage_for_tower tower_lat tower_lon tower_height tx_power
                               freq_mhz grid_lats grid_lons = Ok [].
Proof.
  intros Hlats. rewrite calculate_coverage_for_tower_rows.
  unfold for_range.
  change (@nil dict) with (@nil dict ++ []) at 1.
  rewrite (for_each_append _ _ (fun _ => [])).
  - simpl. induction (seq 0 (List.length grid_lats)); auto.
  - intros i acc Hi. apply in_seq in Hi.
    rewrite (getitem_nth grid_lats 0 []) by lia. cbn [bind].
    rewrite (has_shape_row r 0 grid_lats 0 Hlats)
      by (destruct Hlats as [<- _]; lia).
    unfold coverage_row, for_range. simpl. now rewrite app_nil_r.
Qed.

Lemma empty_grid_gives_no_records_witness :
  calculate_coverage_for_tower 47.9212 106.9186 30 43 900
                               [ []; [] ] [ [Fin 106.9] ] = Ok [].
Proof.
  apply (empty_grid_gives_no_records _ _ _ _ _ _ _ 2).
  split; [reflexivity | repeat constructor].
Defined.

(* ================================================================== *)
(** * The exported records *)
(* ================================================================== *)

Lemma export_of_tower_record (tower : Tower) (lat lon : npfloat) :
  export_of (tower_record tower lat lon) = export_record tower lat lon.
Proof. reflexivity. Qed.

(** The records of the frame after the column selection are the records
    of the dataset, each put in the order of [column_order]. *)
Lemma df_getitem_records (records : list dict) :
  records <> [] ->
  Forall (fun d => keys d = record_keys) records ->
  exists df,
    df_getitem (pd_DataFrame records) column_order = Ok df
    /\ df_records df = map export_of records.
Proof.
  intros Hne Hkeys. unfold df_getitem.
  rewrite (pd_DataFrame_columns records Hne Hkeys).
  rewrite positions_column_order. cbn [bind].
  eexists. split; [reflexivity|].
  unfold df_records. cbn [columns rows].
  rewrite pd_DataFrame_rows.
  rewrite (pd_DataFrame_columns records Hne Hkeys).
  rewrite !map_map. apply map_ext. intros d. reflexivity.
Qed.

Lemma flat_map_nil_blocks {A B : Type} (f : A -> list B) (l : list A) :
  (forall x, In x l -> f x = []) -> flat_map f l = [].
Proof.
  induction l as [|x l IH]; intros Hnil; simpl; [reflexivity|].
  rewrite Hnil by now left. simpl. apply IH. intros; apply Hnil; now right.
Qed.

Lemma map_flat_map_blocks {A B C : Type} (g : B -> C) (f : A -> list B)
    (l : list A) :
  map g (flat_map f l) = flat_map (fun x => map g (f x)) l.
Proof.
  induction l as [|x l IH]; simpl; [reflexivity|].
  now rewrite map_app, IH.
Qed.

(** The whole chain for at least one tower and a grid size of at least
    one: the records of the exported frame are the export records of the
    towers, tower after tower, each over the generated grid row by row. *)
Lemma coverage_dataframe_records
    (towers : list Tower) (center_lat center_lon : npfloat)
    (grid_size : Z) (area_km : npfloat) :
  towers <> [] -> (1 <= grid_size)%Z ->
  exists df grid_lats grid_lons,
    generate_coverage_grid center_lat center_lon grid_size area_km
    = Ok (grid_lats, grid_lons)
    /\ coverage_dataframe towers center_lat center_lon grid_size area_km
       = Ok df
    /\ df_records df
       = flat_map
           (fun tower =>
              tower_block (export_record tower)
                          (Z.to_nat grid_size) (Z.to_nat grid_size)
                          grid_lats grid_lons)
           towers.
Proof.
  intros Htowers Hsize.
  destruct (generate_coverage_grid_shape center_lat center_lon grid_size
                                         area_km)
    as (grid_lats & grid_lons & Hgrid & Hlats & Hlons); [lia|].
  unfold coverage_dataframe. rewrite Hgrid. cbn [bind].
  pose proof (all_coverage_data_records towers grid_lats grid_lons) as Hrecs.
  rewrite (all_coverage_data_blocks towers grid_lats grid_lons _ _ Hlats
                                    Hlons) in Hrecs |- *.
  cbn [bind].
  set (data := flat_map _ towers) in *.
  assert (Hlen : List.length data
                 = (List.length towers
                    * (Z.to_nat grid_size * Z.to_nat grid_size))%nat).
  { apply length_flat_map_block. intros tower _. apply length_tower_block. }
  assert (Hne : data <> []).
  { intros Hnil. rewrite Hnil in Hlen. simpl in Hlen.
    destruct towers as [|tower towers']; [contradiction|].
    simpl in Hlen. nia. }
  specialize (Hrecs data eq_refl).
  destruct (df_getitem_records data Hne) as (df & Hdf & Hout).
  { eapply Forall_impl; [|exact Hrecs].
    intros d (tower & lat & lon & _ & ->). apply keys_tower_record. }
  exists df, grid_lats, grid_lons.
  split; [reflexivity|]. split; [exact Hdf|].
  rewrite Hout. unfold data. rewrite map_flat_map_blocks.
  apply flat_map_ext. intros tower. now rewrite map_tower_block.
Qed.

(** X12.  The exported frame, record by record.  For at least one tower and a
    grid size [N >= 1], the record at position [t * N * N + i * N + j] of
    the frame carries, in the order of [column_order], the values computed
    for tower [t] at the grid point of row [i] and column [j]: building the
    frame and selecting the columns neither reorders the records nor moves
    a value to another field. *)
Theorem exported_records_in_order
    (towers : list Tower) (center_lat center_lon : npfloat)
    (grid_size : Z) (area_km : npfloat) :
  towers <> [] -> (1 <= grid_size)%Z ->
  let N := Z.to_nat grid_size in
  exists df grid_lats grid_lons,
    generate_coverage_grid center_lat center_lon grid_size area_km
    = Ok (grid_lats, grid_lons)
    /\ coverage_dataframe towers center_lat center_lon grid_size area_km
       = Ok df
    /\ List.length (df_records df) = (List.length towers * (N * N))%nat
    /\ forall (t i j : nat) (tower : Tower),
         nth_error towers t = Some tower -> (i < N)%nat -> (j < N)%nat ->
         nth_error (df_records df) (t * (N * N) + (i * N + j))
         = Some (export_record tower
                   (nth j (nth i grid_lats []) NaN)
                   (nth j (nth i grid_lons []) NaN)).
Proof.
  intros Htowers Hsize N.
  destruct (coverage_dataframe_records towers center_lat center_lon
                                       grid_size area_km Htowers Hsize)
    as (df & grid_lats & grid_lons & Hgrid & Hdf & Hrecs).
  exists df, grid_lats, grid_lons.
  split; [exact Hgrid|]. split; [exact Hdf|]. rewrite Hrecs. split.
  - apply length_flat_map_block. intros tower _. apply length_tower_block.
  - intros t i j tower Ht Hi Hj.
    rewrite (nth_error_flat_map_block _ (N * N) towers) with (a := tower).
    + now apply nth_error_tower_block.
    + intros x _. apply length_tower_block.
    + exact Ht.
    + fold N. nia.
Qed.

Lemma exported_records_in_order_witness :
  exists df,
    coverage_dataframe towers 47.9212 106.9186 30 15 = Ok df
    /\ List.length (df_records df) = (10 * (30 * 30))%nat.
Proof.
  destruct (exported_records_in_order towers 47.9212 106.9186 30 15)
    as (df & _ & _ & _ & Hdf & Hlen & _).
  - discriminate.
  - lia.
  - exists df. split; [exact Hdf | exact Hlen].
Defined.

(** X13.  Without a tower, or with a grid size of zero, there is no record, the
    frame has no column, and the column selection raises [KeyError]: no
    empty export is produced. *)
Theorem empty_dataset_raises_key_error
    (towers : list Tower) (center_lat center_lon : npfloat)
    (grid_size : Z) (area_km : npfloat) :
  (0 <= grid_size)%Z -> towers = [] \/ grid_size = 0%Z ->
  exists label,
    coverage_dataframe towers center_lat center_lon grid_size area_km
    = Raise (KeyError label).
Proof.
  intros Hsize Hempty.
  destruct (generate_coverage_grid_shape center_lat center_lon grid_size
                                         area_km Hsize)
    as (grid_lats & grid_lons & Hgrid & Hlats & Hlons).
  unfold coverage_dataframe. rewrite Hgrid. cbn [bind].
  rewrite (all_coverage_data_blocks towers grid_lats grid_lons _ _ Hlats
                                    Hlons).
  cbn [bind].
  rewrite flat_map_nil_blocks.
  - eexists. reflexivity.
  - intros tower Hin. destruct Hempty as [-> | ->]; [destruct Hin|].
    reflexivity.
Qed.

Lemma empty_dataset_raises_key_error_witness :
  exists label,
    coverage_dataframe [] 47.9212 106.9186 30 15 = Raise (KeyError label).
Proof.
  apply empty_dataset_raises_key_error; [lia | now left].
Defined.

(* ================================================================== *)
(** * [predict_coverage] and the export pipeline *)
(* ================================================================== *)

Lemma combine_repeat_l {A B : Type} (v : A) (l : list B) :
  combine (repeat v (List.length l)) l = map (pair v) l.
Proof.
  induction l as [|x l IH]; simpl; [reflexivity|]. now rewrite IH.
Qed.

(** An entry-wise operation on the two matrices of a [meshgrid]. *)
Lemma array_map2_meshgrid (f : npfloat -> npfloat -> npfloat)
    (xs ys : list npfloat) :
  array_map2 f (snd (np_meshgrid xs ys)) (fst (np_meshgrid xs ys))
  = map (fun y => map (fun x => f y x) xs) ys.
Proof.
  unfold array_map2, np_meshgrid. cbn [fst snd].
  induction ys as [|y ys IH]; simpl; [reflexivity|].
  rewrite combine_repeat_l, map_map. cbn [fst snd].
  f_equal. exact IH.
Qed.

Lemma nth_nested_map (g : npfloat -> npfloat -> npfloat)
    (xs ys : list npfloat) (i j : nat) :
  (i < List.length ys)%nat -> (j < List.length xs)%nat ->
  nth j (nth i (map (fun y => map (fun x => g y x) xs) ys) []) NaN
  = g (nth i ys NaN) (nth j xs NaN).
Proof.
  intros Hi Hj.
  rewrite (nth_error_nth _ i []
             (x := map (fun x => g (nth i ys NaN) x) xs)).
  - apply nth_error_nth.
    rewrite nth_error_map, (nth_error_nth' xs NaN Hj). reflexivity.
  - rewrite nth_error_map, (nth_error_nth' ys NaN Hi). reflexivity.
Qed.

(** The result of [predict_coverage] in terms of the two [linspace]
    vectors. *)
Lemma predict_coverage_result {D B : Type} (dem : D) (buildings : B)
    (lat0 lon0 tx_height tx_power_dbm freq_mhz : npfloat) :
  exists lats lons,
    np_linspace (lat0 - (10 / 111) / 2)%npf (lat0 + (10 / 111) / 2)%npf 200
    = Ok lats
    /\ np_linspace
         (lon0 - (10 / (111 * np_cos (np_radians lat0))) / 2)%npf
         (lon0 + (10 / (111 * np_cos (np_radians lat0))) / 2)%npf 200
       = Ok lons
    /\ List.length lats = 200%nat /\ List.length lons = 200%nat
    /\ predict_coverage dem buildings (lat0, lon0) tx_height tx_power_dbm
                        freq_mhz
       = Ok {| lat_grid := snd (np_meshgrid lons lats);
               lon_grid := fst (np_meshgrid lons lats);
               rx_power :=
                 map (fun lat =>
                        map (fun lon =>
                               (tx_power_dbm
                                - hata_model tx_height 1.5 freq_mhz
                                    (floor_distance
                                       (raw_distance_km lat0 lon0 lat lon))
                                    "large")%npf)
                            lons)
                     lats |}.
Proof.
  destruct (np_linspace_length
              (lat0 - (10 / 111) / 2)%npf (lat0 + (10 / 111) / 2)%npf 200)
    as (lats & Hlats & Hnlats); [lia|].
  destruct (np_linspace_length
              (lon0 - (10 / (111 * np_cos (np_radians lat0))) / 2)%npf
              (lon0 + (10 / (111 * np_cos (np_radians lat0))) / 2)%npf 200)
    as (lons & Hlons & Hnlons); [lia|].
  exists lats, lons.
  split; [exact Hlats|]. split; [exact Hlons|].
  split; [exact Hnlats|]. split; [exact Hnlons|].
  unfold predict_coverage. rewrite Hlats, Hlons. cbn [bind].
  rewrite (surjective_pairing (np_meshgrid lons lats)).
  rewrite array_map2_meshgrid.
  unfold array_map. rewrite !map_map.
  f_equal. f_equal. apply map_ext. intros lat.
  rewrite !map_map. reflexivity.
Qed.

(** X15.  [predict_coverage] never raises and returns three 200 by 200 arrays;
    at every grid point its received power is the [Signal_Strength_dBm]
    that the export pipeline computes for the same transmitter at the same
    coordinates. *)
Theorem predict_coverage_matches_coverage_point
    {D B : Type} (dem : D) (buildings : B)
    (lat0 lon0 tx_height tx_power_dbm freq_mhz : npfloat) :
  exists cov,
    predict_coverage dem buildings (lat0, lon0) tx_height tx_power_dbm
                     freq_mhz = Ok cov
    /\ has_shape 200 200 (lat_grid cov)
    /\ has_shape 200 200 (lon_grid cov)
    /\ has_shape 200 200 (rx_power cov)
    /\ forall i j, (i < 200)%nat -> (j < 200)%nat ->
         dict_get
           (coverage_point lat0 lon0 tx_height tx_power_dbm freq_mhz
                           (nth j (nth i (lat_grid cov) []) NaN)
                           (nth j (nth i (lon_grid cov) []) NaN))
           "Signal_Strength_dBm"
         = Some (VNum (nth j (nth i (rx_power cov) []) NaN)).
Proof.
  destruct (predict_coverage_result dem buildings lat0 lon0 tx_height
                                    tx_power_dbm freq_mhz)
    as (lats & lons & _ & _ & Hnlats & Hnlons & Hrun).
  eexists. split; [exact Hrun|]. cbn [lat_grid lon_grid rx_power].
  pose proof (np_meshgrid_shape lons lats) as [Hlon Hlat].
  rewrite Hnlats, Hnlons in Hlon, Hlat.
  split; [exact Hlat|]. split; [exact Hlon|]. split.
  - split; [now rewrite length_map|].
    apply Forall_forall. intros row Hrow. apply in_map_iff in Hrow.
    destruct Hrow as (lat & <- & _). now rewrite length_map.
  - intros i j Hi Hj.
    rewrite nth_nested_map by lia.
    unfold np_meshgrid. cbn [fst snd].
    rewrite nth_repeat_cols by lia.
    rewrite nth_repeat_rows by lia.
    rewrite coverage_point_fields. reflexivity.
Qed.

(** X16.  [predict_coverage] lays its grid out the other way round than
    [generate_coverage_grid]: called with the same centre, 200 points and
    10 km, the entry of row [i] and column [j] of its two coordinate arrays
    is the entry of row [j] and column [i] of the generator's. *)
Theorem predict_coverage_grid_is_transposed
    {D B : Type} (dem : D) (buildings : B)
    (lat0 lon0 tx_height tx_power_dbm freq_mhz : npfloat) :
  exists cov grid_lats grid_lons,
    predict_coverage dem buildings (lat0, lon0) tx_height tx_power_dbm
                     freq_mhz = Ok cov
    /\ generate_coverage_grid lat0 lon0 200 10 = Ok (grid_lats, grid_lons)
    /\ forall i j, (i < 200)%nat -> (j < 200)%nat ->
         nth j (nth i (lat_grid cov) []) NaN
         = nth i (nth j grid_lats []) NaN
         /\ nth j (nth i (lon_grid cov) []) NaN
            = nth i (nth j grid_lons []) NaN.
Proof.
  destruct (predict_coverage_result dem buildings lat0 lon0 tx_height
                                    tx_power_dbm freq_mhz)
    as (lats & lons & Hlats & Hlons & Hnlats & Hnlons & Hrun).
  destruct (generate_coverage_grid_entries lat0 lon0 200 10 lats lons
              Hlats Hlons Hnlats Hnlons)
    as (grid_lats & grid_lons & Hgrid & Hentries).
  eexists. exists grid_lats, grid_lons.
  split; [exact Hrun|]. split; [exact Hgrid|].
  intros i j Hi Hj. cbn [lat_grid lon_grid].
  destruct (Hentries j i) as [-> ->]; [exact Hj | exact Hi |].
  unfold np_meshgrid. cbn [fst snd].
  rewrite nth_repeat_cols by lia.
  rewrite nth_repeat_rows by lia.
  split; reflexivity.
Qed.

(* ================================================================== *)
(** * Tower heights *)
(* ================================================================== *)

Lemma fold_left_append {A B : Type} (g : A -> list B) (l : list A)
    (acc : list B) :
  fold_left (fun acc x => acc ++ g x) l acc = acc ++ flat_map g l.
Proof.
  revert acc. induction l as [|x l IH]; intros acc; simpl.
  - now rewrite app_nil_r.
  - now rewrite IH, app_assoc.
Qed.

Lemma fold_left_pointwise {A B : Type} (f g : A -> B -> A) (l : list B)
    (a : A) :
  (forall acc x, f acc x = g acc x) -> fold_left f l a = fold_left g l a.
Proof.
  intros Hfg. revert a. induction l as [|x l IH]; intros a; simpl.
  - reflexivity.
  - now rewrite Hfg, IH.
Qed.

Section TowerHeightFacts.

Variable Geometry : Type.
Variable centroid : Geometry -> npfloat * npfloat.
Variable float_of_str : string -> option npfloat.

Let info := tower_height_info Geometry centroid float_of_str.
Let usable := usable_tag float_of_str.

Let reported := reported_entries Geometry centroid float_of_str.

Lemma extract_tower_heights_flat_map
    (osm_towers : list (string * list (Feature Geometry))) :
  extract_tower_heights Geometry centroid float_of_str osm_towers
  = flat_map (fun item => flat_map (reported (fst item)) (snd item))
             osm_towers.
Proof.
  unfold extract_tower_heights.
  rewrite <- (app_nil_l (flat_map _ osm_towers)).
  rewrite <- fold_left_append.
  apply fold_left_pointwise.
  intros acc [tower_type tower_data]. cbn [fst snd].
  destruct tower_data as [|tower rest]; [simpl; now rewrite app_nil_r|].
  rewrite <- fold_left_append.
  apply fold_left_pointwise. intros acc' tw.
  unfold reported, reported_entries.
  destruct (hi_height_m _); [reflexivity | now rewrite app_nil_r].
Qed.

Lemma first_height_usable (attrs : list (string * pyobj))
    (pre post : list string) (tag : string) (x : npfloat) :
  (forall t, In t pre -> usable attrs t = None) ->
  usable attrs tag = Some x ->
  first_height float_of_str attrs (pre ++ tag :: post) = Some x.
Proof.
  unfold usable, usable_tag. intros Hpre Htag.
  induction pre as [|t pre IH]; simpl.
  - destruct (attribute attrs tag) as [v|]; [|discriminate].
    destruct (is_not_None v); [|discriminate]. now rewrite Htag.
  - pose proof (Hpre t (or_introl eq_refl)) as Ht.
    assert (IH' := IH (fun u Hu => Hpre u (or_intror Hu))).
    destruct (attribute attrs t) as [v|]; [|exact IH'].
    destruct (is_not_None v); [|exact IH']. now rewrite Ht.
Qed.

Lemma first_height_none (attrs : list (string * pyobj))
    (tags : list string) :
  (forall t, In t tags -> usable attrs t = None) ->
  first_height float_of_str attrs tags = None.
Proof.
  unfold usable, usable_tag. intros Hall.
  induction tags as [|t tags IH]; simpl; [reflexivity|].
  pose proof (Hall t (or_introl eq_refl)) as Ht.
  assert (IH' := IH (fun u Hu => Hall u (or_intror Hu))).
  destruct (attribute attrs t) as [v|]; [|exact IH'].
  destruct (is_not_None v); [|exact IH']. now rewrite Ht.
Qed.

Lemma first_height_some (attrs : list (string * pyobj))
    (tags : list string) (x : npfloat) :
  first_height float_of_str attrs tags = Some x ->
  exists tag, In tag tags /\ usable attrs tag = Some x.
Proof.
  unfold usable, usable_tag.
  induction tags as [|t tags IH]; simpl; [discriminate|].
  intros Hfirst.
  destruct (attribute attrs t) as [v|] eqn:Hattr.
  - destruct (is_not_None v) eqn:Hnone.
    + destruct (py_float float_of_str v) as [y|] eqn:Hfloat.
      * injection Hfirst as <-. exists t. split; [now left|].
        now rewrite Hattr, Hnone.
      * destruct (IH Hfirst) as (tag & Hin & Htag). exists tag.
        split; [now right | exact Htag].
    + destruct (IH Hfirst) as (tag & Hin & Htag). exists tag.
      split; [now right | exact Htag].
  - destruct (IH Hfirst) as (tag & Hin & Htag). exists tag.
    split; [now right | exact Htag].
Qed.

(** X17.  The height tags are tried in the order height, building:height,
    tower:height, ele: the first of them that is present, is not [None]
    and converts gives the height, whatever the later tags and the
    building levels say, and a tag that does not convert only passes the
    turn on.  The feature is reported with that height and without the
    ['estimated'] flag. *)
Theorem first_usable_height_tag_wins
    (tower_type : string) (tower : Feature Geometry)
    (pre post : list string) (tag : string) (x : npfloat)
    (frame : list (Feature Geometry)) :
  height_tags = pre ++ tag :: post ->
  (forall t, In t pre -> usable_tag float_of_str (attributes tower) t
                         = None) ->
  usable_tag float_of_str (attributes tower) tag = Some x ->
  In tower frame ->
  exists entry,
    In entry (extract_tower_heights Geometry centroid float_of_str
                                    [(tower_type, frame)])
    /\ hi_type entry = tower_type
    /\ hi_geometry entry = geometry tower
    /\ hi_height_m entry = Some x
    /\ hi_estimated entry = None.
Proof.
  intros Htags Hpre Htag Hin.
  assert (Hinfo : info tower_type tower
                  = mkHeightInfo tower_type (geometry tower)
                      (snd (centroid (geometry tower)),
                       fst (centroid (geometry tower)))
                      (Some x) None).
  { unfold info, tower_height_info. rewrite Htags.
    rewrite (first_height_usable _ pre post tag x Hpre Htag).
    reflexivity. }
  exists (info tower_type tower). split.
  - rewrite extract_tower_heights_flat_map. cbn [flat_map fst snd].
    rewrite app_nil_r. apply in_flat_map. exists tower.
    split; [exact Hin|]. unfold reported, reported_entries. fold info. rewrite Hinfo. now left.
  - rewrite Hinfo. repeat split.
Qed.

(** X18.  When none of the four height tags is usable, a usable
    [building:levels] gives the height as three metres per level and sets
    the ['estimated'] flag; when that is not usable either, the feature is
    left out of the result. *)
Theorem building_levels_fallback
    (tower_type : string) (tower : Feature Geometry)
    (frame : list (Feature Geometry)) :
  (forall t, In t height_tags ->
             usable_tag float_of_str (attributes tower) t = None) ->
  In tower frame ->
  match usable_tag float_of_str (attributes tower) "building:levels" with
  | Some levels =>
      exists entry,
        In entry (extract_tower_heights Geometry centroid float_of_str
                                        [(tower_type, frame)])
        /\ hi_geometry entry = geometry tower
        /\ hi_height_m entry = Some (levels * 3.0)%npf
        /\ hi_estimated entry = Some true
  | None =>
      extract_tower_heights Geometry centroid float_of_str
                            [(tower_type, [tower])] = []
  end.
Proof.
  intros Hnone Hin.
  assert (Hfirst := first_height_none (attributes tower) height_tags Hnone).
  assert (Hdrop : hi_height_m (info tower_type tower) = None ->
                  extract_tower_heights Geometry centroid float_of_str
                                        [(tower_type, [tower])] = []).
  { intros Hinfo. rewrite extract_tower_heights_flat_map.
    cbn [flat_map fst snd]. unfold reported, reported_entries.
    fold info. now rewrite Hinfo. }
  unfold usable_tag in Hnone |- *.
  destruct (attribute (attributes tower) "building:levels") as [v|]
    eqn:Hattr.
  - destruct (is_not_None v) eqn:Hv.
    + destruct (py_float float_of_str v) as [levels|] eqn:Hfloat.
      * exists (info tower_type tower).
        assert (Hinfo : info tower_type tower
                        = mkHeightInfo tower_type (geometry tower)
                            (snd (centroid (geometry tower)),
                             fst (centroid (geometry tower)))
                            (Some (levels * 3.0)%npf) (Some true)).
        { unfold info, tower_height_info.
          rewrite Hfirst. cbn. now rewrite Hattr, Hv, Hfloat. }
        split.
        -- rewrite extract_tower_heights_flat_map. cbn [flat_map fst snd].
           rewrite app_nil_r. apply in_flat_map. exists tower.
           split; [exact Hin|]. unfold reported, reported_entries. fold info. rewrite Hinfo. now left.
        -- rewrite Hinfo. repeat split.
      * apply Hdrop. unfold info, tower_height_info.
        rewrite Hfirst. cbn. now rewrite Hattr, Hv, Hfloat.
    + apply Hdrop. unfold info, tower_height_info.
      rewrite Hfirst. cbn. now rewrite Hattr, Hv.
  - apply Hdrop. unfold info, tower_height_info.
    rewrite Hfirst. cbn. now rewrite Hattr.
Qed.

(** X19.  What every entry of the result is.  It comes from one feature of one
    of the frames, carries the key of that frame as its type, and has a
    height: either the number of one of the four height tags, with no
    ['estimated'] flag, or three times the building levels with the flag
    set, and then none of the height tags was usable. *)
Theorem extracted_entries
    (osm_towers : list (string * list (Feature Geometry)))
    (entry : HeightInfo Geometry) :
  In entry (extract_tower_heights Geometry centroid float_of_str
                                  osm_towers) ->
  exists tower_type frame tower,
    In (tower_type, frame) osm_towers /\ In tower frame
    /\ hi_type entry = tower_type
    /\ hi_geometry entry = geometry tower
    /\ ((exists tag x,
           In tag height_tags
           /\ usable_tag float_of_str (attributes tower) tag = Some x
           /\ hi_height_m entry = Some x /\ hi_estimated entry = None)
        \/ (exists levels,
              (forall t, In t height_tags ->
                 usable_tag float_of_str (attributes tower) t = None)
              /\ usable_tag float_of_str (attributes tower)
                            "building:levels" = Some levels
              /\ hi_height_m entry = Some (levels * 3.0)%npf
              /\ hi_estimated entry = Some true)).
Proof.
  rewrite extract_tower_heights_flat_map, in_flat_map.
  intros ([tower_type frame] & Hframe & Hentry). cbn [fst snd] in Hentry.
  rewrite in_flat_map in Hentry. destruct Hentry as (tower & Htower & Hrep).
  exists tower_type, frame, tower.
  split; [exact Hframe|]. split; [exact Htower|].
  unfold reported, reported_entries, tower_height_info in Hrep.
  destruct (first_height float_of_str (attributes tower) height_tags)
    as [x|] eqn:Hfirst.
  - cbn in Hrep. destruct Hrep as [<- | []]. cbn.
    split; [reflexivity|]. split; [reflexivity|]. left.
    destruct (first_height_some _ _ _ Hfirst) as (tag & Hin & Htag).
    exists tag, x. repeat split; assumption.
  - assert (Hnone : forall t, In t height_tags ->
                      usable_tag float_of_str (attributes tower) t = None).
    { intros t Ht.
      destruct (usable_tag float_of_str (attributes tower) t) as [y|]
        eqn:Hy; [|reflexivity].
      apply in_split in Ht. destruct Ht as (pre & post & Hsplit).
      exfalso. clear Hrep.
      assert (Hex : exists z, first_height float_of_str (attributes tower)
                                           height_tags = Some z).
      { rewrite Hsplit. clear Hsplit Hfirst.
        induction pre as [|u pre IH]; simpl.
        - unfold usable_tag in Hy.
          destruct (attribute (attributes tower) t) as [v|];
            [|discriminate].
          destruct (is_not_None v); [|discriminate].
          rewrite Hy. eauto.
        - destruct (attribute (attributes tower) u) as [v|]; [|exact IH].
          destruct (is_not_None v); [|exact IH].
          destruct (py_float float_of_str v); [eauto | exact IH]. }
      destruct Hex as (z & Hz). rewrite Hz in Hfirst. discriminate. }
    cbn in Hrep. unfold usable_tag.
    destruct (attribute (attributes tower) "building:levels") as [v|];
      [|destruct Hrep].
    destruct (is_not_None v); [|destruct Hrep].
    destruct (py_float float_of_str v) as [levels|]; [|destruct Hrep].
    cbn in Hrep. destruct Hrep as [<- | []]. cbn.
    split; [reflexivity|]. split; [reflexivity|]. right.
    exists levels. repeat split. exact Hnone.
Qed.

Lemma extracted_height_is_set
    (osm_towers : list (string * list (Feature Geometry)))
    (entry : HeightInfo Geometry) :
  In entry (extract_tower_heights Geometry centroid float_of_str
                                  osm_towers) ->
  exists h, hi_height_m entry = Some h.
Proof.
  rewrite extract_tower_heights_flat_map, in_flat_map.
  intros ([tower_type frame] & _ & Hentry). cbn [fst snd] in Hentry.
  rewrite in_flat_map in Hentry. destruct Hentry as (tower & _ & Hrep).
  unfold reported, reported_entries in Hrep. fold info in Hrep.
  destruct (hi_height_m (info tower_type tower)) as [h|] eqn:Hh;
    [|destruct Hrep].
  destruct Hrep as [<- | []]. eauto.
Qed.

(** X21.  The map draws every extracted tower green, orange or red, never gray:
    green below 20 m, orange from 20 m to below 50 m, red otherwise; and a
    height that is not a number compares false twice and is drawn red. *)
Theorem extracted_towers_are_never_gray
    (osm_towers : list (string * list (Feature Geometry)))
    (location : npfloat * npfloat) (color : string) :
  In (location, color)
     (tower_markers Geometry
        (extract_tower_heights Geometry centroid float_of_str osm_towers)) ->
  exists entry h,
    In entry (extract_tower_heights Geometry centroid float_of_str
                                    osm_towers)
    /\ hi_coordinates entry = location
    /\ hi_height_m entry = Some h
    /\ color = (if (h <? 20)%npf then "green"
                else if (h <? 50)%npf then "orange" else "red")
    /\ color <> "gray"
    /\ (h = NaN -> color = "red").
Proof.
  unfold tower_markers. rewrite in_map_iff.
  intros (entry & Hmarker & Hentry). injection Hmarker as Hloc Hcolor.
  destruct (extracted_height_is_set osm_towers entry Hentry) as (h & Hh).
  exists entry, h. split; [exact Hentry|]. split; [exact Hloc|].
  split; [exact Hh|]. rewrite Hh in Hcolor. cbn in Hcolor. subst color.
  split; [reflexivity|]. split.
  - destruct (h <? 20)%npf; [discriminate|].
    destruct (h <? 50)%npf; discriminate.
  - intros ->. reflexivity.
Qed.

End TowerHeightFacts.

(** X20.  A feature whose [height] is the float [nan], the way pandas stores a
    tag the feature does not have, passes the [is not None] test: it is
    reported with the height [nan], its building levels are not looked at,
    and the map draws it red. *)
Theorem nan_height_is_reported_and_drawn_red
    (Geometry : Type) (centroid : Geometry -> npfloat * npfloat)
    (float_of_str : string -> option npfloat)
    (tower_type : string) (tower : Feature Geometry)
    (frame : list (Feature Geometry)) :
  attribute (attributes tower) "height" = Some (PyFloat NaN) ->
  In tower frame ->
  exists entry,
    In entry (extract_tower_heights Geometry centroid float_of_str
                                    [(tower_type, frame)])
    /\ hi_geometry entry = geometry tower
    /\ hi_height_m entry = Some NaN
    /\ hi_estimated entry = None
    /\ In (hi_coordinates entry, "red")
          (tower_markers Geometry
             (extract_tower_heights Geometry centroid float_of_str
                                    [(tower_type, frame)])).
Proof.
  intros Hheight Hin.
  set (entry := tower_height_info Geometry centroid float_of_str
                                  tower_type tower).
  assert (Hentry : entry
                   = mkHeightInfo tower_type (geometry tower)
                       (snd (centroid (geometry tower)),
                        fst (centroid (geometry tower)))
                       (Some NaN) None).
  { unfold entry, tower_height_info, height_tags. cbn [first_height].
    rewrite Hheight. reflexivity. }
  assert (Hrep : In entry
                   (extract_tower_heights Geometry centroid float_of_str
                                          [(tower_type, frame)])).
  { rewrite extract_tower_heights_flat_map. cbn [flat_map fst snd].
    rewrite app_nil_r. apply in_flat_map. exists tower.
    split; [exact Hin|]. unfold reported_entries. fold entry.
    rewrite Hentry. now left. }
  exists entry. split; [exact Hrep|].
  rewrite Hentry at 1 2 3. cbn.
  repeat (split; [reflexivity|]).
  unfold tower_markers. apply in_map_iff. exists entry.
  split; [|exact Hrep]. rewrite Hentry. reflexivity.
Qed.

Lemma nan_height_is_reported_and_drawn_red_witness :
  exists entry,
    In entry
       (extract_tower_heights (npfloat * npfloat) (fun g => g)
          float_of_sample
          [("man_made_tower",
            [mkFeature (Fin 106.9, Fin 47.9)
                       [("height", PyFloat NaN);
                        ("building:levels", PyStr "4")]])])
    /\ hi_height_m entry = Some NaN.
Proof.
  destruct (nan_height_is_reported_and_drawn_red
              (npfloat * npfloat) (fun g => g) float_of_sample
              "man_made_tower"
              (mkFeature (Fin 106.9, Fin 47.9)
                         [("height", PyFloat NaN);
                          ("building:levels", PyStr "4")])
              [mkFeature (Fin 106.9, Fin 47.9)
                         [("height", PyFloat NaN);
                          ("building:levels", PyStr "4")]])
    as (entry & Hin & _ & Hheight & _).
  - reflexivity.
  - now left.
  - exists entry. split; [exact Hin | exact Hheight].
Defined.

Lemma first_usable_height_tag_wins_witness :
  exists entry,
    In entry
       (extract_tower_heights (npfloat * npfloat) (fun g => g)
          float_of_sample
          [("tower_True",
            [mkFeature (Fin 106.9, Fin 47.9)
                       [("height", PyStr "30 m"); ("ele", PyStr "1350");
                        ("building:levels", PyStr "4")]])])
    /\ hi_height_m entry = Some (Fin 1350)
    /\ hi_estimated entry = None.
Proof.
  destruct (first_usable_height_tag_wins
              (npfloat * npfloat) (fun g => g) float_of_sample
              "tower_True"
              (mkFeature (Fin 106.9, Fin 47.9)
                         [("height", PyStr "30 m"); ("ele", PyStr "1350");
                          ("building:levels", PyStr "4")])
              ["height"; "building:height"; "tower:height"] [] "ele"
              (Fin 1350)
              [mkFeature (Fin 106.9, Fin 47.9)
                         [("height", PyStr "30 m"); ("ele", PyStr "1350");
                          ("building:levels", PyStr "4")]])
    as (entry & Hin & _ & _ & Hheight & Hest).
  - reflexivity.
  - intros t [<- | [<- | [<- | []]]]; reflexivity.
  - reflexivity.
  - now left.
  - exists entry. split; [exact Hin|]. split; [exact Hheight | exact Hest].
Defined.

Lemma building_levels_fallback_witness :
  exists entry,
    In entry
       (extract_tower_heights (npfloat * npfloat) (fun g => g)
          float_of_sample
          [("building_tower",
            [mkFeature (Fin 106.9, Fin 47.9)
                       [("height", PyNone);
                        ("building:levels", PyStr "4")]])])
    /\ hi_height_m entry = Some (Fin 4 * 3.0)%npf
    /\ hi_estimated entry = Some true.
Proof.
  pose proof (building_levels_fallback
                (npfloat * npfloat) (fun g => g) float_of_sample
                "building_tower"
                (mkFeature (Fin 106.9, Fin 47.9)
                           [("height", PyNone);
                            ("building:levels", PyStr "4")])
                [mkFeature (Fin 106.9, Fin 47.9)
                           [("height", PyNone);
                            ("building:levels", PyStr "4")]]) as Hfall.
  cbn [usable_tag attribute attributes String.eqb Ascii.eqb Bool.eqb
       is_not_None py_float float_of_sample] in Hfall.
  destruct Hfall as (entry & Hin & _ & Hheight & Hest).
  - intros t [<- | [<- | [<- | [<- | []]]]]; reflexivity.
  - now left.
  - exists entry. split; [exact Hin|]. split; [exact Hheight | exact Hest].
Defined.

Lemma extracted_entries_witness :
  exists tower_type frame tower,
    In (tower_type, frame)
       [("tower_True",
         [mkFeature (Fin 106.9, Fin 47.9) [("height", PyStr "12")]])]
    /\ In tower frame
    /\ geometry tower = (Fin 106.9, Fin 47.9).
Proof.
  destruct (extracted_entries
              (npfloat * npfloat) (fun g => g) float_of_sample
              [("tower_True",
                [mkFeature (Fin 106.9, Fin 47.9) [("height", PyStr "12")]])]
              (mkHeightInfo "tower_True" (Fin 106.9, Fin 47.9)
                            (Fin 47.9, Fin 106.9) (Some (Fin 12)) None))
    as (tower_type & frame & tower & Hframe & Htower & _ & Hgeo & _).
  - now left.
  - exists tower_type, frame, tower.
    split; [exact Hframe|]. split; [exact Htower|].
    symmetry. exact Hgeo.
Defined.

Lemma extracted_towers_are_never_gray_witness :
  exists entry h,
    In entry
       (extract_tower_heights (npfloat * npfloat) (fun g => g)
          float_of_sample
          [("tower_True",
            [mkFeature (Fin 106.9, Fin 47.9) [("height", PyStr "12")]])])
    /\ hi_height_m entry = Some h
    /\ "green" <> "gray".
Proof.
  destruct (extracted_towers_are_never_gray
              (npfloat * npfloat) (fun g => g) float_of_sample
              [("tower_True",
                [mkFeature (Fin 106.9, Fin 47.9) [("height", PyStr "12")]])]
              (Fin 47.9, Fin 106.9) "green")
    as (entry & h & Hin & _ & Hheight & _ & Hgray & _).
  - left. cbn. destruct (Rlt_dec 12 20); [reflexivity | lra].
  - exists entry, h. split; [exact Hin|]. split; [exact Hheight|].
    exact Hgray.
Defined.

(* ================================================================== *)
(** * Downloading the towers *)
(* ================================================================== *)

Lemma mem_In (l : list string) (k : string) :
  mem l k = true <-> In k l.
Proof.
  unfold mem. rewrite existsb_exists. split.
  - intros (x & Hx & Heq). apply String.eqb_eq in Heq. now subst.
  - intros Hk. exists k. split; [exact Hk | apply String.eqb_refl].
Qed.

Lemma keys_setitem_fresh {V : Type} (d : list (string * V)) (k : string)
    (v : V) :
  ~ In k (map fst d) -> map fst (setitem d k v) = map fst d ++ [k].
Proof.
  induction d as [|[k' v'] d IH]; intros Hfresh; simpl; [reflexivity|].
  destruct (String.eqb k' k) eqn:Heq.
  - apply String.eqb_eq in Heq. exfalso. apply Hfresh. now left.
  - simpl. f_equal. apply IH. intros Hin. apply Hfresh. now right.
Qed.

Lemma Forall_setitem {V : Type} (P : V -> Prop) (d : list (string * V))
    (k : string) (v : V) :
  Forall (fun kv => P (snd kv)) d -> P v ->
  Forall (fun kv => P (snd kv)) (setitem d k v).
Proof.
  intros Hd Hv. induction Hd as [|[k' v'] d Hk' Hd IH]; simpl.
  - now repeat constructor.
  - destruct (String.eqb k' k); constructor; auto.
Qed.

(** A selection from [L] is also a selection from [L] followed by keys
    that [L] does not have. *)
Lemma filter_restrict (keep : string -> bool) (L new : list string) :
  (forall x, In x new -> ~ In x L) ->
  filter (fun x => keep x && mem L x) (L ++ new) = filter keep L.
Proof.
  intros Hfresh. rewrite filter_app.
  replace (filter (fun x => keep x && mem L x) new) with (@nil string).
  - rewrite app_nil_r. apply filter_ext_in. intros x Hx.
    rewrite (proj2 (mem_In L x) Hx). apply andb_true_r.
  - symmetry. induction new as [|y new IH]; [reflexivity|]. simpl.
    destruct (mem L y) eqn:Hy.
    + apply mem_In in Hy. exfalso. apply (Hfresh y); [now left | exact Hy].
    + rewrite andb_false_r. apply IH. intros x Hx. apply Hfresh. now right.
Qed.

(** A selection from [L] with one more key at its end is a selection from
    [L] followed by that key, when [L] does not have it. *)
Lemma filter_extend (keep : string -> bool) (L : list string) (k : string) :
  ~ In k L ->
  filter (fun x => keep x || String.eqb x k) (L ++ [k])
  = filter keep L ++ [k].
Proof.
  intros Hfresh. rewrite filter_app. simpl.
  rewrite String.eqb_refl, orb_true_r. f_equal.
  apply filter_ext_in. intros x Hx.
  destruct (String.eqb x k) eqn:Heq; [|apply orb_false_r].
  apply String.eqb_eq in Heq. subst. contradiction.
Qed.

Lemma filter_subset (keep : string -> bool) (L : list string) (k : string) :
  In k (filter keep L) -> In k L.
Proof. intros Hin. now apply filter_In in Hin. Qed.

Lemma NoDup_app_fresh (L new : list string) :
  NoDup (L ++ new) -> forall x, In x new -> ~ In x L.
Proof.
  induction L as [|y L IH]; intros Hnd x Hx Hin; [destruct Hin|].
  simpl in Hnd. inversion Hnd as [|? ? Hy Hrest]; subst.
  destruct Hin as [-> | Hin].
  - apply Hy. apply in_or_app. now right.
  - now apply (IH Hrest x).
Qed.

Section DownloadFacts.

Variable GeoData : Type.
Variable empty : GeoData -> bool.
Variable geometries_from_place : string -> string -> tag_value -> py GeoData.

Let run := download_tower_data GeoData empty geometries_from_place.
Let stored (L : list string) (towers : list (string * GeoData)) : Prop :=
  (exists keep, map fst towers = filter keep L)
  /\ Forall (fun kv => empty (snd kv) = false) towers.

(** One query more: whether its frame is stored or not, the dict stays a
    selection of the keys asked for so far. *)
Lemma stored_step (L : list string) (towers : list (string * GeoData))
    (k : string) (data : GeoData) :
  stored L towers -> ~ In k L ->
  stored (L ++ [k])
         (if negb (empty data) then setitem towers k data else towers).
Proof.
  intros [(keep & Hkeys) Hne] Hfresh.
  destruct (empty data) eqn:Hdata; cbn [negb].
  - split; [|exact Hne]. exists (fun x => keep x && mem L x).
    rewrite filter_restrict; [exact Hkeys|].
    intros x [<- | []]. exact Hfresh.
  - split.
    + exists (fun x => keep x || String.eqb x k).
      rewrite filter_extend by exact Hfresh.
      rewrite keys_setitem_fresh; [now rewrite Hkeys|].
      rewrite Hkeys. intros Hin. apply Hfresh.
      now apply (filter_subset keep).
    + apply (Forall_setitem (fun d => empty d = false)); assumption.
Qed.

Lemma stored_more (L new : list string)
    (towers : list (string * GeoData)) :
  stored L towers -> (forall x, In x new -> ~ In x L) ->
  stored (L ++ new) towers.
Proof.
  intros [(keep & Hkeys) Hne] Hfresh. split; [|exact Hne].
  exists (fun x => keep x && mem L x).
  now rewrite filter_restrict.
Qed.

Lemma download_values_stored (city_name tag_key : string)
    (values : list string) :
  forall (L : list string) (towers : list (string * GeoData)),
    stored L towers ->
    NoDup (L ++ map (fun v => (tag_key ++ "_" ++ v)%string) values) ->
    stored (L ++ map (fun v => (tag_key ++ "_" ++ v)%string) values)
           (fst (download_values GeoData empty geometries_from_place
                                 city_name tag_key values towers)).
Proof.
  induction values as [|value rest IH]; intros L towers Hst Hnd.
  - simpl. now rewrite app_nil_r.
  - cbn [download_values map].
    destruct (geometries_from_place city_name tag_key (TagStr value))
      as [data|e].
    + cbn [map] in Hnd.
      replace (L ++ (tag_key ++ "_" ++ value)%string
                 :: map (fun v => (tag_key ++ "_" ++ v)%string) rest)
        with ((L ++ [(tag_key ++ "_" ++ value)%string])
              ++ map (fun v => (tag_key ++ "_" ++ v)%string) rest)
        in Hnd |- * by (rewrite <- app_assoc; reflexivity).
      apply IH; [|exact Hnd].
      apply stored_step; [exact Hst|].
      apply NoDup_app_remove_r in Hnd.
      apply (NoDup_app_fresh L _ Hnd). now left.
    + cbn [fst]. apply stored_more; [exact Hst|].
      now apply NoDup_app_fresh.
Qed.

Lemma download_tag_stored (city_name : string)
    (item : string * tag_value) (L : list string)
    (towers : list (string * GeoData)) :
  stored L towers -> NoDup (L ++ item_keys item) ->
  stored (L ++ item_keys item)
         (fst (download_tag GeoData empty geometries_from_place city_name
                            (fst item) (snd item) towers)).
Proof.
  intros Hst Hnd. destruct item as [tag_key tag_value].
  unfold item_keys in *. cbn [fst snd] in *.
  assert (Hscalar :
    forall v,
      NoDup (L ++ [(tag_key ++ "_" ++ tag_text v)%string]) ->
      stored (L ++ [(tag_key ++ "_" ++ tag_text v)%string])
             (fst match geometries_from_place city_name tag_key v with
                  | Ok data =>
                      (if negb (empty data)
                       then setitem towers
                              (tag_key ++ "_" ++ tag_text v)%string data
                       else towers, None)
                  | Raise e => (towers, Some e)
                  end)).
  { intros v Hnd'.
    destruct (geometries_from_place city_name tag_key v) as [data|e];
      cbn [fst].
    - apply stored_step; [exact Hst|].
      apply (NoDup_app_fresh L _ Hnd'). now left.
    - apply stored_more; [exact Hst|]. now apply NoDup_app_fresh. }
  destruct tag_value as [| s | values]; cbn [download_tag].
  - now apply Hscalar.
  - now apply Hscalar.
  - now apply download_values_stored.
Qed.

(** The loop over the entries of [tower_tags], from any state. *)
Lemma download_loop_stored (city_name : string)
    (items : list (string * tag_value)) :
  forall (L T : list string) (towers : list (string * GeoData))
         (printed : list (string * exn)),
    stored L towers ->
    (exists keep, map fst printed = filter keep T) ->
    NoDup (L ++ flat_map item_keys items) ->
    NoDup (T ++ map fst items) ->
    let out :=
      fold_left
        (fun state item =>
           let '(towers, printed) := state in
           let '(tag_key, tag_value) := item in
           match download_tag GeoData empty geometries_from_place
                              city_name tag_key tag_value towers with
           | (towers, None) => (towers, printed)
           | (towers, Some e) => (towers, printed ++ [(tag_key, e)])
           end)
        items (towers, printed) in
    stored (L ++ flat_map item_keys items) (fst out)
    /\ exists keep,
         map fst (snd out) = filter keep (T ++ map fst items).
Proof.
  induction items as [|item items IH];
    intros L T towers printed Hst Hprinted HndL HndT; cbn [fold_left].
  - cbn. rewrite !app_nil_r. split; assumption.
  - cbn [flat_map map] in HndL, HndT |- *.
    replace (L ++ item_keys item ++ flat_map item_keys items)
      with ((L ++ item_keys item) ++ flat_map item_keys items)
      in HndL |- * by (now rewrite app_assoc).
    replace (T ++ fst item :: map fst items)
      with ((T ++ [fst item]) ++ map fst items)
      in HndT |- * by (rewrite <- app_assoc; reflexivity).
    pose proof (download_tag_stored city_name item L towers Hst
                  (NoDup_app_remove_r _ _ HndL)) as Hstep.
    assert (Hfresh : ~ In (fst item) T).
    { apply NoDup_app_remove_r in HndT.
      apply (NoDup_app_fresh T _ HndT). now left. }
    destruct Hprinted as (keep & Hkeep).
    destruct item as [tag_key tag_value]. cbn [fst snd] in *.
    destruct (download_tag GeoData empty geometries_from_place city_name
                           tag_key tag_value towers)
      as [towers' [e|]]; cbn [fst] in Hstep.
    + apply IH; [exact Hstep | | exact HndL | exact HndT].
      exists (fun x => keep x || String.eqb x tag_key).
      rewrite filter_extend by exact Hfresh.
      now rewrite map_app, Hkeep.
    + apply IH; [exact Hstep | | exact HndL | exact HndT].
      exists (fun x => keep x && mem T x).
      rewrite filter_restrict; [exact Hkeep|].
      intros x [<- | []]. exact Hfresh.
Qed.

(** X22.  Whatever the map service answers, [download_tower_data] returns: the
    keys of its dict are a selection of the seven it can store, in the
    order the queries are made and without repetition; every frame it
    stores is non-empty; and the tag keys it reports as failed are a
    selection of the four, in order, each at most once. *)
Theorem downloaded_towers_shape (city_name : string) :
  (exists keep,
     map fst (fst (run city_name)) = filter keep tower_data_keys)
  /\ Forall (fun kv => empty (snd kv) = false) (fst (run city_name))
  /\ exists keep,
       map fst (snd (run city_name))
       = filter keep ["tower"; "man_made"; "building"; "amenity"].
Proof.
  destruct (download_loop_stored city_name tower_tags [] [] [] [])
    as [[Hkeys Hne] Hprinted].
  - split; [exists (fun _ => true); reflexivity | constructor].
  - exists (fun _ => true). reflexivity.
  - cbn. repeat constructor; cbn; intuition discriminate.
  - cbn. repeat constructor; cbn; intuition discriminate.
  - split; [exact Hkeys|]. split; [exact Hne | exact Hprinted].
Qed.

End DownloadFacts.

Section DownloadOutcomes.

Variable GeoData : Type.
Variable empty : GeoData -> bool.
Variable geometries_from_place : string -> string -> tag_value -> py GeoData.

Let run := download_tower_data GeoData empty geometries_from_place.

(** X23.  When every query succeeds with a non-empty frame, the dict has the
    seven keys, each with the frame of its query, and nothing is
    reported. *)
Theorem all_queries_succeed (city_name : string)
    (frame : string -> tag_value -> GeoData) :
  (forall k v, geometries_from_place city_name k v = Ok (frame k v)) ->
  (forall k v, empty (frame k v) = false) ->
  run city_name
  = ([ ("tower_True", frame "tower" TagTrue);
       ("man_made_tower", frame "man_made" (TagStr "tower"));
       ("man_made_communications_tower",
        frame "man_made" (TagStr "communications_tower"));
       ("man_made_antenna", frame "man_made" (TagStr "antenna"));
       ("building_tower", frame "building" (TagStr "tower"));
       ("building_communications_tower",
        frame "building" (TagStr "communications_tower"));
       ("amenity_telephone", frame "amenity" (TagStr "telephone")) ],
     []).
Proof.
  intros Hok Hne.
  unfold run, download_tower_data, tower_tags.
  cbn [fold_left download_tag download_values].
  rewrite !Hok, !Hne. reflexivity.
Qed.

(** X24.  An exception in the middle of a list of values ends the work on that
    tag key only.  When the query for man_made = communications_tower
    raises after the one for man_made = tower succeeded, the frame of
    man_made = tower stays in the dict if it is not empty, man_made =
    antenna is never stored, the failure is reported once under
    [man_made], and the later tag keys are still downloaded. *)
Theorem failed_query_skips_rest_of_its_key (city_name : string)
    (first : GeoData) (e : exn) :
  geometries_from_place city_name "man_made" (TagStr "tower") = Ok first ->
  geometries_from_place city_name "man_made" (TagStr "communications_tower")
  = Raise e ->
  (empty first = false ->
   In ("man_made_tower", first) (fst (run city_name)))
  /\ ~ In "man_made_communications_tower"
          (map fst (fst (run city_name)))
  /\ ~ In "man_made_antenna" (map fst (fst (run city_name)))
  /\ In ("man_made", e) (snd (run city_name))
  /\ (forall later,
        geometries_from_place city_name "building" (TagStr "tower")
        = Ok later ->
        empty later = false ->
        In ("building_tower", later) (fst (run city_name))).
Proof.
  intros Hfirst Hfail.
  unfold run, download_tower_data, tower_tags.
  cbn [fold_left download_tag download_values].
  rewrite Hfirst, Hfail.
  destruct (geometries_from_place city_name "tower" TagTrue)
    as [d0|e0]; [destruct (empty d0)|];
    (destruct (empty first) eqn:Hfirst_empty);
    (destruct (geometries_from_place city_name "building" (TagStr "tower"))
      as [d1|e1] eqn:Hq1;
     [ destruct (empty d1) eqn:He1;
       (destruct (geometries_from_place city_name "building"
                                        (TagStr "communications_tower"))
         as [d2|e2]; [destruct (empty d2)|])
     | ]);
    (destruct (geometries_from_place city_name "amenity"
                                     (TagStr "telephone"))
      as [d3|e3]; [destruct (empty d3)|]);
    cbn;
    (split; [intros Hne; try discriminate; intuition auto|]);
    (split; [intuition discriminate|]);
    (split; [intuition discriminate|]);
    (split; [intuition auto|]);
    intros later Hlater Hne; try discriminate;
    injection Hlater as <-; try congruence; intuition auto.
Qed.

End DownloadOutcomes.

Lemma all_queries_succeed_witness :
  download_tower_data nat (Nat.eqb 0) (fun _ _ _ => Ok 1%nat)
                      "Ulaanbaatar, Mongolia"
  = ([ ("tower_True", 1%nat); ("man_made_tower", 1%nat);
       ("man_made_communications_tower", 1%nat);
       ("man_made_antenna", 1%nat); ("building_tower", 1%nat);
       ("building_communications_tower", 1%nat);
       ("amenity_telephone", 1%nat) ],
     []).
Proof.
  apply (all_queries_succeed nat (Nat.eqb 0) (fun _ _ _ => Ok 1%nat)
                             "Ulaanbaatar, Mongolia" (fun _ _ => 1%nat));
    reflexivity.
Defined.

Lemma failed_query_skips_rest_of_its_key_witness :
  let service :=
    fun (_ key : string) (value : tag_value) =>
      match value with
      | TagStr "communications_tower" =>
          if String.eqb key "man_made" then Raise ValueError
          else Ok 1%nat
      | _ => Ok 1%nat
      end in
  In ("man_made_tower", 1%nat)
     (fst (download_tower_data nat (Nat.eqb 0) service
                               "Ulaanbaatar, Mongolia"))
  /\ ~ In "man_made_antenna"
          (map fst (fst (download_tower_data nat (Nat.eqb 0) service
                                             "Ulaanbaatar, Mongolia"))).
Proof.
  intros service.
  destruct (failed_query_skips_rest_of_its_key
              nat (Nat.eqb 0) service "Ulaanbaatar, Mongolia"
              1%nat ValueError eq_refl eq_refl)
    as (Hkept & _ & Hskipped & _).
  split; [apply Hkept; reflexivity | exact Hskipped].
Defined.

(* ================================================================== *)
(** * Grid spacing and file names *)
(* ================================================================== *)

(** X6.  The grid step.  For a grid size [N >= 2] neighbouring points of the
    generated grid are [area_km / (N - 1)] km apart, along a row (in
    latitude) and down a column (in longitude, measured at the centre
    latitude): the extent is divided by [N - 1], not by [N]. *)
Theorem grid_step
    (center_lat center_lon area_km : R) (grid_size : Z) :
  (2 <= grid_size)%Z -> -90 < center_lat < 90 ->
  exists grid_lats grid_lons,
    generate_coverage_grid (Fin center_lat) (Fin center_lon) grid_size
                           (Fin area_km) = Ok (grid_lats, grid_lons)
    /\ forall i j,
         (i < Z.to_nat grid_size)%nat -> (S j < Z.to_nat grid_size)%nat ->
         exists lat lat' lon lon' : R,
           nth j (nth i grid_lats []) NaN = Fin lat
           /\ nth (S j) (nth i grid_lats []) NaN = Fin lat'
           /\ nth i (nth j grid_lons []) NaN = Fin lon
           /\ nth i (nth (S j) grid_lons []) NaN = Fin lon'
           /\ (lat' - lat) * 111 = area_km / IZR (grid_size - 1)
           /\ (lon' - lon) * 111 * cos (center_lat * (PI / 180))
              = area_km / IZR (grid_size - 1).
Proof.
  intros Hsize Hlat.
  pose proof (cos_degrees_pos center_lat Hlat) as Hcos.
  destruct (generate_coverage_grid_closed_form
              center_lat center_lon area_km grid_size)
    as (grid_lats & grid_lons & Hgrid & Hat); [lia | lra |].
  exists grid_lats, grid_lons. split; [exact Hgrid|].
  intros i j Hi Hj.
  destruct (Hat i j Hi ltac:(lia)) as [Hlat0 _].
  destruct (Hat i (S j) Hi Hj) as [Hlat1 _].
  destruct (Hat j i ltac:(lia) Hi) as [_ Hlon0].
  destruct (Hat (S j) i Hj Hi) as [_ Hlon1].
  do 4 eexists.
  split; [exact Hlat0|]. split; [exact Hlat1|].
  split; [exact Hlon0|]. split; [exact Hlon1|].
  assert (Hm : IZR (grid_size - 1) <> 0) by (apply not_0_IZR; lia).
  rewrite S_INR. split; field; lra.
Qed.

Lemma grid_step_witness :
  exists grid_lats grid_lons,
    generate_coverage_grid (Fin 47.9212) (Fin 106.9186) 30 (Fin 15)
    = Ok (grid_lats, grid_lons)
    /\ exists lat lat' : R,
         nth 0 (nth 0 grid_lats []) NaN = Fin lat
         /\ nth 1 (nth 0 grid_lats []) NaN = Fin lat'
         /\ (lat' - lat) * 111 = 15 / IZR (30 - 1).
Proof.
  destruct (grid_step 47.9212 106.9186 15 30)
    as (gl & gn & Hgrid & Hat); [lia | lra |].
  exists gl, gn. split; [exact Hgrid|].
  destruct (Hat 0%nat 0%nat) as (lat & lat' & _ & _ & H0 & H1 & _ & _ & Hd & _).
  - apply Nat.ltb_lt. reflexivity.
  - apply Nat.ltb_lt. reflexivity.
  - exists lat, lat'. split; [exact H0|]. split; [exact H1 | exact Hd].
Defined.

Lemma length_string_append (s t : string) :
  String.length (s ++ t) = (String.length s + String.length t)%nat.
Proof.
  induction s as [|c s IH]; simpl; [reflexivity|]. now rewrite IH.
Qed.

Lemma string_append_cancel_r (s t1 t2 : string) :
  (t1 ++ s)%string = (t2 ++ s)%string -> t1 = t2.
Proof.
  revert t2. induction t1 as [|c t1 IH]; intros [|c' t2] Heq.
  - reflexivity.
  - exfalso. apply (f_equal String.length) in Heq.
    simpl in Heq. rewrite length_string_append in Heq. lia.
  - exfalso. apply (f_equal String.length) in Heq.
    simpl in Heq. rewrite length_string_append in Heq. lia.
  - simpl in Heq. injection Heq as -> Heq. f_equal. now apply IH.
Qed.

Lemma string_append_cancel_l (s t1 t2 : string) :
  (s ++ t1)%string = (s ++ t2)%string -> t1 = t2.
Proof.
  induction s as [|c s IH]; simpl; intros Heq; [exact Heq|].
  injection Heq as Heq. now apply IH.
Qed.

(** X14.  The name of the written file tells the runs apart exactly as far as
    the timestamp does: two runs return the same file name if and only if
    they read the same timestamp off the clock (the timestamp has a
    resolution of one second, so two runs within a second write to the same
    file). *)
Theorem file_name_follows_timestamp
    (timestamp1 timestamp2 filename1 filename2 : string)
    (df1 df2 : DataFrame) :
  generate_arcgis_coverage_csv timestamp1 = Ok (filename1, df1) ->
  generate_arcgis_coverage_csv timestamp2 = Ok (filename2, df2) ->
  (filename1 = filename2 <-> timestamp1 = timestamp2).
Proof.
  unfold generate_arcgis_coverage_csv.
  destruct (coverage_dataframe towers 47.9212 106.9186 30 15) as [df|e];
    [|discriminate].
  cbn [bind]. intros Hrun1 Hrun2.
  assert (Hname1 : filename1
                   = ("radio_coverage_arcgis_" ++ timestamp1 ++ ".csv")%string)
    by congruence.
  assert (Hname2 : filename2
                   = ("radio_coverage_arcgis_" ++ timestamp2 ++ ".csv")%string)
    by congruence.
  rewrite Hname1, Hname2. split.
  - intros Heq.
    apply (string_append_cancel_l "radio_coverage_arcgis_") in Heq.
    now apply (string_append_cancel_r ".csv") in Heq.
  - now intros ->.
Qed.

Lemma file_name_follows_timestamp_witness :
  exists df,
    generate_arcgis_coverage_csv "20250101_000000"
    = Ok ("radio_coverage_arcgis_20250101_000000.csv", df)
    /\ ("radio_coverage_arcgis_20250101_000000.csv"
        = "radio_coverage_arcgis_20250101_000001.csv"
        <-> "20250101_000000" = "20250101_000001").
Proof.
  destruct (coverage_dataframe_ok towers 47.9212 106.9186 30 15)
    as (df & Hdf & _); [discriminate | lia |].
  assert (Hrun : forall timestamp,
            generate_arcgis_coverage_csv timestamp
            = Ok (("radio_coverage_arcgis_" ++ timestamp ++ ".csv")%string,
                  df)).
  { intros timestamp. unfold generate_arcgis_coverage_csv.
    now rewrite Hdf. }
  exists df. split; [apply Hrun|].
  apply (file_name_follows_timestamp
           "20250101_000000" "20250101_000001" _ _ df df);
    apply Hrun.
Defined.
